(** * Book-Review service: cache-aside listing and write invalidation

    A shallow embedding of [app/services/cache.py], [app/services/book_service.py]
    and [app/api/books.py].  Python code that talks to Redis and to the SQL
    session becomes code in a state-and-exception monad over an explicit
    [World]: the Redis server, the [cache_service] singleton, the database
    with its session, a ghost record of the calls made to the two
    collaborators, and the log lines written.

    Transport failures are not decided by the program, so the world carries,
    for each collaborator, a schedule of outcomes: every round trip consumes
    the head of the schedule and raises when it is a fault.  A Redis command
    may fail before it is sent or after the server has applied it; a commit
    that raises has rolled the session back. *)

From Stdlib Require Import ZArith Ascii String List Bool Lia.
From stdpp Require Import base option list strings pretty gmap.

Set Warnings "-register-all".
Local Open Scope Z_scope.

(** ** Python values, exceptions *)

(** What [json.loads] can produce and [json.dumps] consumes. *)
Inductive pyval :=
| PNone
| PBool (b : bool)
| PInt (n : Z)
| PStr (s : string)
| PList (xs : list pyval)
| PDict (kvs : list (string * pyval)).

(** Every exception class below derives from [Exception]; [Exception] itself
    stands for the remaining subclasses (redis errors, [OperationalError],
    [JSONDecodeError], ...). *)
Inductive exn :=
| Exception (msg : string)
| TypeError (msg : string)
| IntegrityError (msg : string)
| HTTPException (status_code : Z) (detail : string).

(** [str(e)] *)
Definition str (e : exn) : string :=
  match e with
  | Exception msg | TypeError msg | IntegrityError msg => msg
  | HTTPException status_code detail => pretty status_code +:+ ": " +:+ detail
  end.

Inductive result (A : Type) :=
| Ok (a : A)
| Raise (e : exn).
Arguments Ok {A} a.
Arguments Raise {A} e.

(** [len(v)]: only strings, lists and dicts are sized. *)
Definition len (v : pyval) : result Z :=
  match v with
  | PStr s => Ok (Z.of_nat (String.length s))
  | PList xs => Ok (Z.of_nat (length xs))
  | PDict kvs => Ok (Z.of_nat (length kvs))
  | PNone => Raise (TypeError "object of type 'NoneType' has no len()")
  | PBool _ => Raise (TypeError "object of type 'bool' has no len()")
  | PInt _ => Raise (TypeError "object of type 'int' has no len()")
  end.

(** [needle in haystack] on strings. *)
Fixpoint contains (needle haystack : string) : bool :=
  String.prefix needle haystack ||
  match haystack with
  | EmptyString => false
  | String _ rest => contains needle rest
  end.

(** A timestamp is kept as its ISO-8601 text. *)
Definition datetime := string.
Definition isoformat (d : datetime) : string := d.

(** ** Rows and request bodies ([app/models/book.py], [app/schemas]) *)

Module Book.
Record t := {
  id : Z;
  title : string;
  author : string;
  isbn : option string;
  description : option string;
  published_year : option Z;
  created_at : option datetime;
  updated_at : option datetime
}.
End Book.

Module BookCreate.
Record t := {
  title : string;
  author : string;
  isbn : option string;
  description : option string;
  published_year : option Z
}.
End BookCreate.

Module Review.
Record t := {
  id : Z;
  book_id : Z;
  reviewer_name : string;
  rating : Z;
  comment : option string;
  created_at : option datetime;
  updated_at : option datetime
}.
End Review.

Module ReviewCreate.
Record t := {
  reviewer_name : string;
  rating : Z;
  comment : option string
}.
End ReviewCreate.

(** ** The world *)

(** The client handle built by [redis.Redis(...)]. *)
Record Redis := {
  host : string;
  port : Z;
  password : option string;
  db_index : Z
}.

(** A transport error of one Redis command, as the client sees it: either the
    command did not reach the server, or the server ran it and the reply did
    not arrive in time ([socket_timeout]). *)
Inductive redis_fault :=
| NotSent (msg : string)
| ReplyLost (msg : string).

(** The Redis server: entries with the TTL they were stored with, and the
    outcome of each coming command ([Some f] is a transport error).  The
    passing of time is outside the model: within the requests considered no
    entry expires. *)
Record RedisServer := {
  store : gmap string (Z * string);
  redis_faults : list (option redis_fault)
}.

(** Objects of the ORM session. *)
Inductive new_row :=
| NewBook (data : BookCreate.t)
| NewReview (book_id : Z) (data : ReviewCreate.t).

Inductive table := Books | Reviews.

Inductive orm_state :=
| Pending (row : new_row)
| Persistent (tbl : table) (pk : Z)
| Expunged.

Inductive db_fault :=
| OperationalFault (msg : string)
| IntegrityFault (msg : string).

Record Database := {
  books : list Book.t;
  reviews : list Review.t;
  books_id_seq : Z;
  reviews_id_seq : Z;
  now : datetime;
  session : list orm_state;
  db_faults : list (option db_fault)
}.

(** Calls received by the Cache Client and by the Persistence Gateway. *)
Inductive event :=
| CacheGet (key : string)
| CacheSet (key : string) (value : pyval) (expire : Z)
| CacheDelete (key : string)
| GatewayGetBooks (skip limit : Z)
| GatewayGetBook (book_id : Z)
| GatewayCreateBook (data : BookCreate.t)
| GatewayGetBookReviews (book_id skip limit : Z)
| GatewayCreateReview (book_id : Z) (data : ReviewCreate.t).

Inductive level := INFO | WARNING | ERROR.

Record World := {
  redis_client : option Redis;
  redis : RedisServer;
  database : Database;
  calls : list event;
  logs : list (level * string)
}.

Definition with_redis_client (c : option Redis) (w : World) : World :=
  {| redis_client := c; redis := redis w; database := database w;
     calls := calls w; logs := logs w |}.
Definition with_redis (r : RedisServer) (w : World) : World :=
  {| redis_client := redis_client w; redis := r; database := database w;
     calls := calls w; logs := logs w |}.
Definition with_database (d : Database) (w : World) : World :=
  {| redis_client := redis_client w; redis := redis w; database := d;
     calls := calls w; logs := logs w |}.
Definition with_calls (c : list event) (w : World) : World :=
  {| redis_client := redis_client w; redis := redis w; database := database w;
     calls := c; logs := logs w |}.
Definition with_logs (l : list (level * string)) (w : World) : World :=
  {| redis_client := redis_client w; redis := redis w; database := database w;
     calls := calls w; logs := l |}.

(** ** The monad: state passing with Python exceptions

    A raised exception keeps the state reached so far. *)

Definition M (A : Type) : Type := World -> result A * World.

Definition ret {A} (a : A) : M A := fun w => (Ok a, w).
Definition raise {A} (e : exn) : M A := fun w => (Raise e, w).
Definition bind {A B} (m : M A) (f : A -> M B) : M B :=
  fun w =>
    match m w with
    | (Ok a, w') => f a w'
    | (Raise e, w') => (Raise e, w')
    end.

(** [try: body except Exception as e: handler e] *)
Definition try_except {A} (body : M A) (handler : exn -> M A) : M A :=
  fun w =>
    match body w with
    | (Ok a, w') => (Ok a, w')
    | (Raise e, w') => handler e w'
    end.

Definition lift {A} (r : result A) : M A := fun w => (r, w).

Declare Scope py_scope.
Delimit Scope py_scope with py.
Notation "x <- m ;; k" := (bind m (fun x => k))
  (at level 100, m at next level, right associativity) : py_scope.
Notation "m ;;; k" := (bind m (fun _ => k))
  (at level 100, right associativity) : py_scope.
Local Open Scope py_scope.

Definition log (l : level) (msg : string) : M unit :=
  fun w => (Ok tt, with_logs (logs w ++ [(l, msg)]) w).

Definition record (e : event) : M unit :=
  fun w => (Ok tt, with_calls (calls w ++ [e]) w).

Definition read {A} (f : World -> A) : M A := fun w => (Ok (f w), w).

(** The next scheduled outcome of a Redis round trip, when it is a fault, and
    the world once that outcome is consumed. *)
Definition next_redis_fault (w : World) : option redis_fault :=
  match redis_faults (redis w) with
  | Some f :: _ => Some f
  | _ => None
  end.

Definition consume_redis_outcome (w : World) : World :=
  with_redis {| store := store (redis w);
                redis_faults := tail (redis_faults (redis w)) |} w.

(** ** External libraries

    [json] is not part of the repository: the development holds for every
    behaviour of [json.loads] and [json.dumps], raising included. *)
Class Json := {
  json_loads : string -> result pyval;
  json_dumps : pyval -> result string
}.

(** [app/core/config.py], Redis part. *)
Module settings.
Definition REDIS_HOST : string := "localhost".
Definition REDIS_PORT : Z := 6379.
Definition REDIS_PASSWORD : option string := None.
Definition REDIS_DB : Z := 0.
End settings.

(** ** The Redis client library, as far as the service uses it *)

Module RedisClient.

(** One command: it consumes the next scheduled outcome; [effect] is what the
    server does with the command and replies.  A command that was not sent
    has no effect; one whose reply is lost has had its effect and raises all
    the same. *)
Definition execute_command {A} (effect : M A) : M A :=
  fun w =>
    match next_redis_fault w with
    | None => effect (consume_redis_outcome w)
    | Some (NotSent msg) => (Raise (Exception msg), consume_redis_outcome w)
    | Some (ReplyLost msg) =>
        (Raise (Exception msg), snd (effect (consume_redis_outcome w)))
    end.

Definition ping (self : Redis) : M bool :=
  execute_command (ret true).

Definition get (self : Redis) (key : string) : M (option string) :=
  execute_command (read (fun w => snd <$> store (redis w) !! key)).

Definition setex (self : Redis) (key : string) (time : Z) (value : string) : M bool :=
  execute_command
    (fun w =>
       (Ok true,
        with_redis {| store := <[key := (time, value)]> (store (redis w));
                      redis_faults := redis_faults (redis w) |} w)).

Definition delete (self : Redis) (key : string) : M Z :=
  execute_command
    (fun w =>
       (Ok (match store (redis w) !! key with Some _ => 1 | None => 0 end),
        with_redis {| store := base.delete key (store (redis w));
                      redis_faults := redis_faults (redis w) |} w)).

End RedisClient.

(** ** [app/services/cache.py] *)

Module CacheService.

Definition _connect : M unit :=
  try_except
    (let client := {| host := settings.REDIS_HOST; port := settings.REDIS_PORT;
                      password := settings.REDIS_PASSWORD;
                      db_index := settings.REDIS_DB |} in
     (fun w => (Ok tt, with_redis_client (Some client) w));;;
     RedisClient.ping client;;;
     log INFO "Redis connection established")
    (fun e =>
       log WARNING ("Redis connection failed: " +:+ str e);;;
       fun w => (Ok tt, with_redis_client None w)).

Definition __init__ : M unit :=
  (fun w => (Ok tt, with_redis_client None w));;;
  _connect.

Definition get {J : Json} (key : string) : M pyval :=
  record (CacheGet key);;;
  self_redis_client <- read redis_client;;
  match self_redis_client with
  | None =>
      log WARNING "Redis client not available, returning None";;;
      ret PNone
  | Some client =>
      try_except
        (value <- RedisClient.get client key;;
         match value with
         | Some (String c s) =>
             log INFO ("Cache hit for key: " +:+ key);;;
             lift (json_loads (String c s))
         | Some EmptyString | None =>
             log INFO ("Cache miss for key: " +:+ key);;;
             ret PNone
         end)
        (fun e =>
           log ERROR ("Cache get error for key " +:+ key +:+ ": " +:+ str e);;;
           ret PNone)
  end.

Definition set {J : Json} (key : string) (value : pyval) (expire : Z) : M bool :=
  record (CacheSet key value expire);;;
  self_redis_client <- read redis_client;;
  match self_redis_client with
  | None =>
      log WARNING "Redis client not available, skipping cache set";;;
      ret false
  | Some client =>
      try_except
        (serialized_value <- lift (json_dumps value);;
         RedisClient.setex client key expire serialized_value;;;
         log INFO ("Cache set successful for key: " +:+ key);;;
         ret true)
        (fun e =>
           log ERROR ("Cache set error for key " +:+ key +:+ ": " +:+ str e);;;
           ret false)
  end.

Definition delete (key : string) : M bool :=
  record (CacheDelete key);;;
  self_redis_client <- read redis_client;;
  match self_redis_client with
  | None =>
      log WARNING "Redis client not available, skipping cache delete";;;
      ret false
  | Some client =>
      try_except
        (RedisClient.delete client key;;;
         log INFO ("Cache delete successful for key: " +:+ key);;;
         ret true)
        (fun e =>
           log ERROR ("Cache delete error for key " +:+ key +:+ ": " +:+ str e);;;
           ret false)
  end.

Definition is_available : M bool :=
  self_redis_client <- read redis_client;;
  ret (match self_redis_client with Some _ => true | None => false end).

End CacheService.

(** ** The SQL session ([sqlalchemy.orm.Session] on PostgreSQL)

    The schema is the one of [app/models/book.py] and
    [migrations/create_initial_tables.py]: [books.isbn] carries the unique
    index [ix_books_isbn], [reviews.book_id] references [books.id]. *)

Definition with_session (s : list orm_state) (d : Database) : Database :=
  {| books := books d; reviews := reviews d; books_id_seq := books_id_seq d;
     reviews_id_seq := reviews_id_seq d; now := now d; session := s;
     db_faults := db_faults d |}.
Definition with_db_faults (f : list (option db_fault)) (d : Database) : Database :=
  {| books := books d; reviews := reviews d; books_id_seq := books_id_seq d;
     reviews_id_seq := reviews_id_seq d; now := now d; session := session d;
     db_faults := f |}.
Definition with_tables (bs : list Book.t) (rs : list Review.t) (d : Database) : Database :=
  {| books := bs; reviews := rs; books_id_seq := books_id_seq d;
     reviews_id_seq := reviews_id_seq d; now := now d; session := session d;
     db_faults := db_faults d |}.
Definition with_sequences (b r : Z) (d : Database) : Database :=
  {| books := books d; reviews := reviews d; books_id_seq := b;
     reviews_id_seq := r; now := now d; session := session d;
     db_faults := db_faults d |}.

(** The next scheduled outcome of a database round trip, when it is a fault,
    the exception it surfaces as, and the world once it is consumed. *)
Definition next_db_fault (w : World) : option db_fault :=
  match db_faults (database w) with
  | Some f :: _ => Some f
  | _ => None
  end.

Definition exn_of_fault (f : db_fault) : exn :=
  match f with
  | OperationalFault msg => Exception msg
  | IntegrityFault msg => IntegrityError msg
  end.

Definition consume_db_outcome (w : World) : World :=
  with_database (with_db_faults (tail (db_faults (database w))) (database w)) w.

Definition dquote : string := String "034"%char EmptyString.
Definition newline : string := String "010"%char EmptyString.

(** The text PostgreSQL gives for a violated unique index. *)
Definition unique_violation (constraint column value : string) : string :=
  "(psycopg2.errors.UniqueViolation) duplicate key value violates unique constraint "
  +:+ dquote +:+ constraint +:+ dquote +:+ newline
  +:+ "DETAIL:  Key (" +:+ column +:+ ")=(" +:+ value +:+ ") already exists.".

Definition foreign_key_violation (tbl constraint : string) : string :=
  "(psycopg2.errors.ForeignKeyViolation) insert or update on table "
  +:+ dquote +:+ tbl +:+ dquote +:+ " violates foreign key constraint "
  +:+ dquote +:+ constraint +:+ dquote.

Definition same_isbn (value : string) (b : Book.t) : bool :=
  match Book.isbn b with
  | Some v => String.eqb v value
  | None => false
  end.

Definition has_id (book_id : Z) (b : Book.t) : bool := Book.id b =? book_id.

(** One INSERT.  The primary key is drawn from the sequence before the
    constraints are checked, so a refused row still consumes a value.  The
    code never supplies an id of its own, and the sequence is above every
    stored id ([schema_invariant]); the constraints that can refuse a row are
    therefore the unique index on [isbn] and the foreign key of [reviews]. *)
Definition insert_row (row : new_row) (d : Database) : result (table * Z) * Database :=
  match row with
  | NewBook data =>
      let pk := books_id_seq d + 1 in
      let d1 := with_sequences pk (reviews_id_seq d) d in
      match BookCreate.isbn data with
      | Some value =>
          if existsb (same_isbn value) (books d)
          then (Raise (IntegrityError (unique_violation "ix_books_isbn" "isbn" value)), d1)
          else
            (Ok (Books, pk),
             with_tables
               (books d ++
                [{| Book.id := pk; Book.title := BookCreate.title data;
                    Book.author := BookCreate.author data;
                    Book.isbn := BookCreate.isbn data;
                    Book.description := BookCreate.description data;
                    Book.published_year := BookCreate.published_year data;
                    Book.created_at := Some (now d); Book.updated_at := None |}])
               (reviews d) d1)
      | None =>
          (Ok (Books, pk),
           with_tables
             (books d ++
              [{| Book.id := pk; Book.title := BookCreate.title data;
                  Book.author := BookCreate.author data;
                  Book.isbn := None;
                  Book.description := BookCreate.description data;
                  Book.published_year := BookCreate.published_year data;
                  Book.created_at := Some (now d); Book.updated_at := None |}])
             (reviews d) d1)
      end
  | NewReview book_id data =>
      let pk := reviews_id_seq d + 1 in
      let d1 := with_sequences (books_id_seq d) pk d in
      if existsb (has_id book_id) (books d)
      then
        (Ok (Reviews, pk),
         with_tables (books d)
           (reviews d ++
            [{| Review.id := pk; Review.book_id := book_id;
                Review.reviewer_name := ReviewCreate.reviewer_name data;
                Review.rating := ReviewCreate.rating data;
                Review.comment := ReviewCreate.comment data;
                Review.created_at := Some (now d); Review.updated_at := None |}])
           d1)
      else (Raise (IntegrityError
                     (foreign_key_violation "reviews" "reviews_book_id_fkey")), d1)
  end.

(** Flush the pending objects of the session, in the order they were added. *)
Fixpoint flush (objs : list orm_state) (d : Database) : result (list orm_state) * Database :=
  match objs with
  | [] => (Ok [], d)
  | Pending row :: rest =>
      match insert_row row d with
      | (Ok (tbl, pk), d1) =>
          match flush rest d1 with
          | (Ok rest', d2) => (Ok (Persistent tbl pk :: rest'), d2)
          | (Raise e, d2) => (Raise e, d2)
          end
      | (Raise e, d1) => (Raise e, d1)
      end
  | o :: rest =>
      match flush rest d with
      | (Ok rest', d2) => (Ok (o :: rest'), d2)
      | (Raise e, d2) => (Raise e, d2)
      end
  end.

Definition expunge_pending (o : orm_state) : orm_state :=
  match o with
  | Pending _ => Expunged
  | _ => o
  end.

Module Session.

(** One round trip to the database: consumes the next scheduled outcome. *)
Definition round_trip : M unit :=
  fun w =>
    match next_db_fault w with
    | None => (Ok tt, consume_db_outcome w)
    | Some f => (Raise (exn_of_fault f), consume_db_outcome w)
    end.

(** [db.query(Book).offset(skip).limit(limit).all()], for the offsets and
    limits the routes accept ([skip >= 0], [limit >= 1]). *)
Definition query_books_all (skip limit : Z) : M (list Book.t) :=
  round_trip;;;
  read (fun w => take (Z.to_nat limit) (drop (Z.to_nat skip) (books (database w)))).

(** [db.query(Book).filter(Book.id == book_id).first()] *)
Definition query_book_first (book_id : Z) : M (option Book.t) :=
  round_trip;;;
  read (fun w => List.find (has_id book_id) (books (database w))).

(** [db.query(Review).filter(Review.book_id == book_id).offset(skip).limit(limit).all()] *)
Definition query_reviews_all (book_id skip limit : Z) : M (list Review.t) :=
  round_trip;;;
  read (fun w =>
          take (Z.to_nat limit)
            (drop (Z.to_nat skip)
               (List.filter (fun r => Review.book_id r =? book_id)
                  (reviews (database w))))).

(** [db.add(obj)]: the object is pending; its handle is its position. *)
Definition add (row : new_row) : M nat :=
  fun w =>
    let d := database w in
    (Ok (length (session d)),
     with_database (with_session (session d ++ [Pending row]) d) w).

(** [db.rollback()]: pending objects leave the session. *)
Definition rollback : M unit :=
  fun w =>
    let d := database w in
    (Ok tt, with_database (with_session (map expunge_pending (session d)) d) w).

(** [db.commit()]: a refused INSERT aborts the transaction, none of its rows
    stays; the sequences keep the values drawn.  A commit that raises, at the
    round trip or at the flush, has rolled the session back before the
    exception reaches the caller: the pending objects have left it. *)
Definition commit : M unit :=
  try_except
    (round_trip;;;
     fun w =>
       let d := database w in
       match flush (session d) d with
       | (Ok objs, d') => (Ok tt, with_database (with_session objs d') w)
       | (Raise e, d') =>
           (Raise e,
            with_database (with_sequences (books_id_seq d') (reviews_id_seq d') d) w)
       end)
    (fun e => rollback;;; raise e).

Definition invalid_request {A} : M A :=
  raise (Exception "(sqlalchemy.exc.InvalidRequestError) Could not refresh instance").

(** [db.refresh(obj)] for a [Book] *)
Definition refresh_book (obj : nat) : M Book.t :=
  objs <- read (fun w => session (database w));;
  match objs !! obj with
  | Some (Persistent Books pk) =>
      row <- query_book_first pk;;
      match row with
      | Some b => ret b
      | None => invalid_request
      end
  | _ => invalid_request
  end.

(** [db.refresh(obj)] for a [Review] *)
Definition refresh_review (obj : nat) : M Review.t :=
  objs <- read (fun w => session (database w));;
  match objs !! obj with
  | Some (Persistent Reviews pk) =>
      round_trip;;;
      row <- read (fun w => List.find (fun r => Review.id r =? pk) (reviews (database w)));;
      match row with
      | Some r => ret r
      | None => invalid_request
      end
  | _ => invalid_request
  end.

End Session.

(** ** [app/services/book_service.py]: the Persistence Gateway *)

Module BookService.

Definition get_books (skip limit : Z) : M (list Book.t) :=
  record (GatewayGetBooks skip limit);;;
  Session.query_books_all skip limit.

Definition get_book (book_id : Z) : M (option Book.t) :=
  record (GatewayGetBook book_id);;;
  Session.query_book_first book_id.

Definition create_book (book : BookCreate.t) : M Book.t :=
  record (GatewayCreateBook book);;;
  let book_data := book in
  db_book <- Session.add (NewBook book_data);;
  Session.commit;;;
  Session.refresh_book db_book.

Definition get_book_reviews (book_id skip limit : Z) : M (list Review.t) :=
  record (GatewayGetBookReviews book_id skip limit);;;
  Session.query_reviews_all book_id skip limit.

Definition create_review (book_id : Z) (review : ReviewCreate.t) : M Review.t :=
  record (GatewayCreateReview book_id review);;;
  let review_data := review in
  db_review <- Session.add (NewReview book_id review_data);;
  Session.commit;;;
  Session.refresh_review db_review.

End BookService.

(** ** [app/api/books.py]: the orchestrators *)

(** What [get_books] hands back to the framework: the cached value as it
    came out of the cache, or the rows loaded from the gateway. *)
Inductive books_response :=
| FromCache (cached_books : pyval)
| FromGateway (books : list Book.t).

Definition opt_str (o : option string) : pyval :=
  match o with
  | Some s => PStr s
  | None => PNone
  end.

Definition opt_int (o : option Z) : pyval :=
  match o with
  | Some n => PInt n
  | None => PNone
  end.

(** The [book_dict] built for one row. *)
Definition book_dict (book : Book.t) : pyval :=
  PDict
    [("id", PInt (Book.id book));
     ("title", PStr (Book.title book));
     ("author", PStr (Book.author book));
     ("isbn", opt_str (Book.isbn book));
     ("description", opt_str (Book.description book));
     ("published_year", opt_int (Book.published_year book));
     ("created_at", opt_str (isoformat <$> Book.created_at book));
     ("updated_at", opt_str (isoformat <$> Book.updated_at book))].

(** [f"books:list:{skip}:{limit}"] *)
Definition cache_key (skip limit : Z) : string :=
  "books:list:" +:+ pretty skip +:+ ":" +:+ pretty limit.

Definition cache_keys_to_invalidate : list string :=
  ["books:list:0:100"; "books:list:0:10"; "books:list:0:50"].

(** [for x in xs: body x] *)
Fixpoint for_each {A} (xs : list A) (body : A -> M unit) : M unit :=
  match xs with
  | [] => ret tt
  | x :: rest => body x;;; for_each rest body
  end.

(** [book.dict()] as it shows in the log; the log texts are for observability
    only. *)
Definition show_book (book : BookCreate.t) : string :=
  "{'title': '" +:+ BookCreate.title book +:+ "', 'author': '"
  +:+ BookCreate.author book +:+ "', ...}".

Module Api.

Definition get_books {J : Json} (skip limit : Z) : M books_response :=
  let cache_key := cache_key skip limit in
  try_except
    (cached_books <- CacheService.get cache_key;;
     match cached_books with
     | PNone =>
         log INFO "Cache miss, fetching books from database";;;
         books <- BookService.get_books skip limit;;
         let books_data := map book_dict books in
         cache_success <- CacheService.set cache_key (PList books_data) 300;;
         (if cache_success : bool
          then log INFO ("Successfully cached "
                         +:+ pretty (Z.of_nat (length books_data)) +:+ " books")
          else log WARNING "Failed to cache books data");;;
         ret (FromGateway books)
     | _ =>
         n <- lift (len cached_books);;
         log INFO ("Returning " +:+ pretty n +:+ " books from cache");;;
         ret (FromCache cached_books)
     end)
    (fun e =>
       log ERROR ("Error in get_books: " +:+ str e);;;
       try_except
         (log INFO "Attempting to fetch books directly from database due to cache error";;;
          books <- BookService.get_books skip limit;;
          ret (FromGateway books))
         (fun db_error =>
            log ERROR ("Database error: " +:+ str db_error);;;
            raise (HTTPException 500 ("Internal server error: " +:+ str db_error)))).

Definition create_book (book : BookCreate.t) : M Book.t :=
  log INFO ("Attempting to create book: " +:+ show_book book);;;
  try_except
    (log INFO "Calling BookService.create_book";;;
     new_book <- BookService.create_book book;;
     log INFO ("Successfully created book with ID: " +:+ pretty (Book.id new_book));;;
     try_except
       (for_each cache_keys_to_invalidate
          (fun cache_key => CacheService.delete cache_key;;; ret tt);;;
        log INFO "Cache invalidated after book creation")
       (fun cache_error =>
          log WARNING ("Cache invalidation failed: " +:+ str cache_error));;;
     ret new_book)
    (fun e =>
       match e with
       | IntegrityError _ =>
           log ERROR ("Database integrity error: " +:+ str e);;;
           Session.rollback;;;
           if contains "duplicate key value violates unique constraint" (str e)
           then
             if contains "ix_books_isbn" (str e)
             then raise (HTTPException 400 "A book with this ISBN already exists")
             else raise (HTTPException 400 "A book with these details already exists")
           else raise (HTTPException 400 "Database constraint violation")
       | _ =>
           log ERROR ("Error creating book: " +:+ str e);;;
           Session.rollback;;;
           raise (HTTPException 500 "Failed to create book")
       end).

Definition get_book_reviews (book_id skip limit : Z) : M (list Review.t) :=
  book <- BookService.get_book book_id;;
  match book with
  | None => raise (HTTPException 404 "Book not found")
  | Some _ =>
      try_except
        (reviews <- BookService.get_book_reviews book_id skip limit;;
         ret reviews)
        (fun e => raise (HTTPException 500 ("Internal server error: " +:+ str e)))
  end.

Definition create_book_review (book_id : Z) (review : ReviewCreate.t) : M Review.t :=
  book <- BookService.get_book book_id;;
  match book with
  | None => raise (HTTPException 404 "Book not found")
  | Some _ =>
      try_except
        (BookService.create_review book_id review)
        (fun e => raise (HTTPException 500 ("Internal server error: " +:+ str e)))
  end.

End Api.

(** The status the framework answers with: the route's own code when the
    handler returns, the code of an [HTTPException], 500 for anything else
    that escapes. *)
Definition status_code {A} (success : Z) (r : result A) : Z :=
  match r with
  | Ok _ => success
  | Raise (HTTPException code _) => code
  | Raise _ => 500
  end.

(** ** Observations on a run *)

Definition is_gateway_call (e : event) : bool :=
  match e with
  | CacheGet _ | CacheSet _ _ _ | CacheDelete _ => false
  | _ => true
  end.

Definition deleted_key (e : event) : option string :=
  match e with
  | CacheDelete key => Some key
  | _ => None
  end.

(** The calls made between two worlds of one run. *)
Definition gateway_calls (w : World) : list event :=
  List.filter is_gateway_call (calls w).
Definition cache_deletes (w : World) : list string :=
  omap deleted_key (calls w).

(** The window the gateway serves for [(skip, limit)]. *)
Definition window (skip limit : Z) (w : World) : list Book.t :=
  take (Z.to_nat limit) (drop (Z.to_nat skip) (books (database w))).

(** One operation of the Cache Client, and its result as a Python value. *)
Inductive cache_op :=
| OpGet (key : string)
| OpSet (key : string) (value : pyval) (expire : Z)
| OpDelete (key : string).

Definition perform {J : Json} (op : cache_op) : M pyval :=
  match op with
  | OpGet key => CacheService.get key
  | OpSet key value expire => b <- CacheService.set key value expire;; ret (PBool b)
  | OpDelete key => b <- CacheService.delete key;; ret (PBool b)
  end.

Definition perform_all {J : Json} (ops : list cache_op) : M unit :=
  for_each ops (fun op => perform op;;; ret tt).

(** What an operation answers when it fails: absent for [get], [False] for
    [set] and [delete]. *)
Definition failure_value (op : cache_op) : pyval :=
  match op with
  | OpGet _ => PNone
  | OpSet _ _ _ | OpDelete _ => PBool false
  end.

(** The internal failures of the Cache Client. *)
Inductive cache_failure {J : Json} (w : World) : cache_op -> Prop :=
| client_unavailable op :
    redis_client w = None -> cache_failure w op
| transport_error op fault :
    next_redis_fault w = Some fault -> cache_failure w op
| deserialization_error key expire text e :
    store (redis w) !! key = Some (expire, text) ->
    json_loads text = Raise e ->
    cache_failure w (OpGet key)
| serialization_error key value expire e :
    json_dumps value = Raise e ->
    cache_failure w (OpSet key value expire).

(** A pagination window the route accepts: [skip >= 0], [1 <= limit <= 1000]. *)
Definition valid_window (skip limit : Z) : Prop :=
  0 <= skip /\ 1 <= limit <= 1000.

(** The answer of [get_books] when the cache reports absent, as the database
    alone decides it: the rows of the window, unless the load and its retry
    both raise. *)
Definition miss_response (skip limit : Z) (w : World) : result books_response :=
  match db_faults (database w) with
  | Some _ :: Some f :: _ =>
      Raise (HTTPException 500 ("Internal server error: " +:+ str (exn_of_fault f)))
  | _ => Ok (FromGateway (window skip limit w))
  end.

(** The calls [get_books] makes when the cache reports absent. *)
Definition miss_calls (skip limit : Z) (w : World) : list event :=
  match next_db_fault w with
  | None =>
      [CacheGet (cache_key skip limit);
       GatewayGetBooks skip limit;
       CacheSet (cache_key skip limit) (PList (map book_dict (window skip limit w))) 300]
  | Some _ =>
      [CacheGet (cache_key skip limit);
       GatewayGetBooks skip limit;
       GatewayGetBooks skip limit]
  end.

(** The claim on a cache hit, for one request and one cached value: the value
    is the answer, and the gateway is not called. *)
Definition served_from_cache {J : Json} (skip limit : Z) (w : World) (v : pyval) : Prop :=
  fst (Api.get_books skip limit w) = Ok (FromCache v) /\
  gateway_calls (snd (Api.get_books skip limit w)) = gateway_calls w.

(** The claim on a cache miss, for one request: the rows the gateway holds for
    the window are the answer, and among the calls of the request is a [set]
    of the key with a TTL of 300 seconds. *)
Definition repopulated_on_miss {J : Json} (skip limit : Z) (w : World) : Prop :=
  fst (CacheService.get (cache_key skip limit) w) = Ok PNone ->
  fst (Api.get_books skip limit w) = Ok (FromGateway (window skip limit w)) /\
  exists value,
    In (CacheSet (cache_key skip limit) value 300)
       (drop (length (calls w)) (calls (snd (Api.get_books skip limit w)))).

(** The claim that a failed load is fatal, for one request. *)
Definition load_failure_is_fatal {J : Json} (skip limit : Z) (w : World) : Prop :=
  fst (CacheService.get (cache_key skip limit) w) = Ok PNone ->
  next_db_fault w <> None ->
  status_code 200 (fst (Api.get_books skip limit w)) = 500.

(** [c in s] for one character. *)
Fixpoint has_char (c : ascii) (s : string) : bool :=
  match s with
  | EmptyString => false
  | String c' rest => Ascii.eqb c c' || has_char c rest
  end.

(** What [create_book] raises for an exception [e] of the gateway. *)
Definition creation_error (e : exn) : exn :=
  match e with
  | IntegrityError msg =>
      if contains "duplicate key value violates unique constraint" msg
      then
        if contains "ix_books_isbn" msg
        then HTTPException 400 "A book with this ISBN already exists"
        else HTTPException 400 "A book with these details already exists"
      else HTTPException 400 "Database constraint violation"
  | _ => HTTPException 500 "Failed to create book"
  end.

(** No row of [books] has this id. *)
Definition book_absent (book_id : Z) (w : World) : Prop :=
  forall b, In b (books (database w)) -> Book.id b <> book_id.

(** A request answered with not-found after the lookup alone: the tables and
    the session are as before, and the only call made is the lookup.
    [success] is the status of the route when its handler returns. *)
Definition not_found_without_write {A} (success book_id : Z) (w : World)
    (run : result A * World) : Prop :=
  fst run = Raise (HTTPException 404 "Book not found") /\
  status_code success (fst run) = 404 /\
  books (database (snd run)) = books (database w) /\
  reviews (database (snd run)) = reviews (database w) /\
  session (database (snd run)) = session (database w) /\
  calls (snd run) = calls w ++ [GatewayGetBook book_id].

(** What a run of a Cache Client method leaves alone: the connection handle
    and the database; it adds exactly its own call to the record. *)
Definition cache_call (e : event) (w w' : World) : Prop :=
  redis_client w' = redis_client w /\
  database w' = database w /\
  calls w' = calls w ++ [e].

(** ** Further observations *)

(** The next [n] round trips to Redis return. *)
Fixpoint redis_up (n : nat) (w : World) : Prop :=
  match n with
  | O => True
  | S n' => next_redis_fault w = None /\ redis_up n' (consume_redis_outcome w)
  end.

(** The next [n] round trips to the database return. *)
Fixpoint db_up (n : nat) (w : World) : Prop :=
  match n with
  | O => True
  | S n' => next_db_fault w = None /\ db_up n' (consume_db_outcome w)
  end.

(** The key an operation of the Cache Client works on. *)
Definition key_of (op : cache_op) : string :=
  match op with
  | OpGet key | OpSet key _ _ | OpDelete key => key
  end.

(** What the schema promises of the tables: primary keys are distinct and
    were drawn from the sequences, no isbn is stored twice, and every review
    refers to a stored book. *)
Definition schema_invariant (d : Database) : Prop :=
  NoDup (Book.id <$> books d) /\
  Forall (fun b => Book.id b <= books_id_seq d) (books d) /\
  NoDup (Review.id <$> reviews d) /\
  Forall (fun r => Review.id r <= reviews_id_seq d) (reviews d) /\
  NoDup (omap Book.isbn (books d)) /\
  Forall (fun r => existsb (has_id (Review.book_id r)) (books d) = true) (reviews d).

(** A computation keeps a property of the connection handle, the Redis server
    and the database: whenever it holds before a run it holds after it,
    whether the run returns or raises. *)
Definition keeps {A} (Q : option Redis -> RedisServer -> Database -> Prop) (m : M A) : Prop :=
  forall w,
    Q (redis_client w) (redis w) (database w) ->
    Q (redis_client (snd (m w))) (redis (snd (m w))) (database (snd (m w))).

Definition on_database (P : Database -> Prop) : option Redis -> RedisServer -> Database -> Prop :=
  fun _ _ d => P d.

Definition on_store (P : gmap string (Z * string) -> Prop) :
    option Redis -> RedisServer -> Database -> Prop :=
  fun _ r _ => P (store r).

(** The database apart from the schedule of outcomes. *)
Definition stored (d : Database) : Database := with_db_faults [] d.

(** The row stored for a new book, and for a new review. *)
Definition book_row (pk : Z) (created : datetime) (data : BookCreate.t) : Book.t :=
  {| Book.id := pk; Book.title := BookCreate.title data;
     Book.author := BookCreate.author data; Book.isbn := BookCreate.isbn data;
     Book.description := BookCreate.description data;
     Book.published_year := BookCreate.published_year data;
     Book.created_at := Some created; Book.updated_at := None |}.

Definition review_row (pk book_id : Z) (created : datetime) (data : ReviewCreate.t) : Review.t :=
  {| Review.id := pk; Review.book_id := book_id;
     Review.reviewer_name := ReviewCreate.reviewer_name data;
     Review.rating := ReviewCreate.rating data;
     Review.comment := ReviewCreate.comment data;
     Review.created_at := Some created; Review.updated_at := None |}.

(** The isbn of the request is not stored yet (a request without isbn never
    conflicts). *)
Definition isbn_free (data : BookCreate.t) (d : Database) : Prop :=
  match BookCreate.isbn data with
  | Some value => existsb (same_isbn value) (books d) = false
  | None => True
  end.

(** [app/main.py]: the handler registered for [Exception]. *)
Module Main.

Definition global_exception_handler (exc : exn) : M (Z * pyval) :=
  log ERROR ("Global exception: " +:+ str exc);;;
  ret (500, PDict [("detail", PStr "Internal server error")]).

End Main.

(** The status and the [detail] a client sees when a handler raises: an
    [HTTPException] is answered by the framework with its own code and detail,
    any other exception goes to [global_exception_handler]. *)
Definition error_response (e : exn) : M (Z * pyval) :=
  match e with
  | HTTPException code detail => ret (code, PDict [("detail", PStr detail)])
  | _ => Main.global_exception_handler e
  end.

Definition is_pending (o : orm_state) : bool :=
  match o with
  | Pending _ => true
  | _ => false
  end.

(** ** Sample data for the examples *)

Module Samples.

Fixpoint parse_digits (acc : Z) (s : string) : option Z :=
  match s with
  | EmptyString => Some acc
  | String c rest =>
      match Ascii.is_nat c with
      | Some d => parse_digits (10 * acc + Z.of_nat d) rest
      | None => None
      end
  end.

Fixpoint dumps (v : pyval) : string :=
  match v with
  | PNone => "null"
  | PBool true => "true"
  | PBool false => "false"
  | PInt n => pretty n
  | PStr s => dquote +:+ s +:+ dquote
  | PList xs =>
      "[" +:+
      (fix items (l : list pyval) : string :=
         match l with
         | [] => ""
         | [x] => dumps x
         | x :: rest => dumps x +:+ ", " +:+ items rest
         end) xs +:+ "]"
  | PDict kvs =>
      "{" +:+
      (fix items (l : list (string * pyval)) : string :=
         match l with
         | [] => ""
         | [(k, x)] => dquote +:+ k +:+ dquote +:+ ": " +:+ dumps x
         | (k, x) :: rest =>
             dquote +:+ k +:+ dquote +:+ ": " +:+ dumps x +:+ ", " +:+ items rest
         end) kvs +:+ "}"
  end.

(** A codec that agrees with [json] on the texts the examples store: the
    literals [null], [true], [false], [[]] and unsigned integers are decoded,
    any other text is refused; strings are printed without escapes. *)
Definition sample_json : Json :=
  {| json_loads s :=
       if String.eqb s "null" then Ok PNone
       else if String.eqb s "true" then Ok (PBool true)
       else if String.eqb s "false" then Ok (PBool false)
       else if String.eqb s "[]" then Ok (PList [])
       else match s with
            | EmptyString => Raise (Exception "Expecting value: line 1 column 1 (char 0)")
            | _ => match parse_digits 0 s with
                   | Some n => Ok (PInt n)
                   | None => Raise (Exception "Expecting value: line 1 column 1 (char 0)")
                   end
            end;
     json_dumps v := Ok (dumps v) |}.

Definition client : Redis :=
  {| host := "localhost"; port := 6379; password := None; db_index := 0 |}.

Definition dune : Book.t :=
  {| Book.id := 1; Book.title := "Dune"; Book.author := "Frank Herbert";
     Book.isbn := Some "9780441013593"; Book.description := None;
     Book.published_year := Some 1965;
     Book.created_at := Some "2024-01-01T00:00:00+00:00"; Book.updated_at := None |}.

Definition emma : Book.t :=
  {| Book.id := 2; Book.title := "Emma"; Book.author := "Jane Austen";
     Book.isbn := None; Book.description := Some "A novel";
     Book.published_year := Some 1815;
     Book.created_at := Some "2024-01-02T00:00:00+00:00"; Book.updated_at := None |}.

Definition db0 : Database :=
  {| books := [dune; emma]; reviews := []; books_id_seq := 2; reviews_id_seq := 0;
     now := "2024-02-01T00:00:00+00:00"; session := []; db_faults := [] |}.

(** Redis up and empty, database healthy. *)
Definition w0 : World :=
  {| redis_client := Some client;
     redis := {| store := ∅; redis_faults := [] |};
     database := db0; calls := []; logs := [] |}.

Definition with_store (m : gmap string (Z * string)) (w : World) : World :=
  with_redis {| store := m; redis_faults := redis_faults (redis w) |} w.
Definition with_redis_faults (f : list (option redis_fault)) (w : World) : World :=
  with_redis {| store := store (redis w); redis_faults := f |} w.
Definition with_faults (f : list (option db_fault)) (w : World) : World :=
  with_database (with_db_faults f (database w)) w.

Definition dune_again : BookCreate.t :=
  {| BookCreate.title := "Dune (reprint)"; BookCreate.author := "Frank Herbert";
     BookCreate.isbn := Some "9780441013593"; BookCreate.description := None;
     BookCreate.published_year := Some 1990 |}.

Definition ulysses : BookCreate.t :=
  {| BookCreate.title := "Ulysses"; BookCreate.author := "James Joyce";
     BookCreate.isbn := Some "9780199535675"; BookCreate.description := None;
     BookCreate.published_year := Some 1922 |}.

Definition praise : ReviewCreate.t :=
  {| ReviewCreate.reviewer_name := "Ada"; ReviewCreate.rating := 5;
     ReviewCreate.comment := Some "Great book!" |}.

End Samples.

(** * Properties *)

(** ** The Cache Client *)

Ltac unfold_cache :=
  unfold CacheService.get, CacheService.set, CacheService.delete,
    CacheService.is_available,
    RedisClient.get, RedisClient.setex, RedisClient.delete, RedisClient.execute_command,
    bind, try_except, ret, raise, lift, log, record, read.

(** Closes a goal [exists a w', run = (Ok a, w') /\ ...] once the run has been
    evaluated. *)
Ltac solve_run :=
  do 2 eexists; split; [reflexivity |]; simpl; repeat split; try assumption;
  try reflexivity.

Lemma get_returns {J : Json} key w :
  exists v w', CacheService.get key w = (Ok v, w') /\ cache_call (CacheGet key) w w'.
Proof.
  unfold cache_call. unfold_cache. simpl.
  destruct (redis_client w) eqn:Hc; simpl; [| solve_run].
  destruct (next_redis_fault _) as [[msg | msg] |]; simpl; [solve_run | solve_run |].
  repeat case_match; simplify_eq/=; solve_run.
Qed.

Lemma set_returns {J : Json} key value expire w :
  exists b w', CacheService.set key value expire w = (Ok b, w') /\
    cache_call (CacheSet key value expire) w w'.
Proof.
  unfold cache_call. unfold_cache. simpl.
  destruct (redis_client w) eqn:Hc; simpl; [| solve_run].
  destruct (json_dumps value); simpl; [| solve_run].
  destruct (next_redis_fault _) as [[msg | msg] |]; simpl; solve_run.
Qed.

Lemma delete_returns key w :
  exists b w', CacheService.delete key w = (Ok b, w') /\ cache_call (CacheDelete key) w w'.
Proof.
  unfold cache_call. unfold_cache. simpl.
  destruct (redis_client w) eqn:Hc; simpl; [| solve_run].
  destruct (next_redis_fault _) as [[msg | msg] |]; simpl; solve_run.
Qed.

Lemma perform_returns {J : Json} op w :
  exists v w', perform op w = (Ok v, w') /\ redis_client w' = redis_client w.
Proof.
  destruct op as [key | key value expire | key]; simpl.
  - destruct (get_returns key w) as (v & w' & -> & Hc & _). eauto.
  - unfold bind, ret.
    destruct (set_returns key value expire w) as (b & w' & -> & Hc & _). eauto.
  - unfold bind, ret.
    destruct (delete_returns key w) as (b & w' & -> & Hc & _). eauto.
Qed.

Lemma perform_failure {J : Json} op w :
  cache_failure w op -> fst (perform op w) = Ok (failure_value op).
Proof.
  intros Hfail.
  destruct Hfail as [op Hc | op fault Hf | key expire text e Hs He | key value expire e He].
  - destruct op; simpl; unfold_cache; simpl; rewrite Hc; reflexivity.
  - destruct op as [key | key value expire | key]; simpl; unfold_cache; simpl;
      destruct (redis_client w); simpl; try reflexivity.
    + change (next_redis_fault (with_calls _ w)) with (next_redis_fault w).
      rewrite Hf. destruct fault; reflexivity.
    + destruct (json_dumps value); simpl; [| reflexivity].
      change (next_redis_fault (with_calls _ w)) with (next_redis_fault w).
      rewrite Hf. destruct fault; reflexivity.
    + change (next_redis_fault (with_calls _ w)) with (next_redis_fault w).
      rewrite Hf. destruct fault; reflexivity.
  - simpl. unfold_cache. simpl.
    destruct (redis_client w); simpl; [| reflexivity].
    destruct (next_redis_fault _) as [[msg | msg] |]; simpl; [reflexivity | reflexivity |].
    rewrite Hs. simpl. destruct text; simpl; [reflexivity |].
    rewrite He. reflexivity.
  - simpl. unfold_cache. simpl.
    destruct (redis_client w); simpl; [| reflexivity].
    rewrite He. reflexivity.
Qed.

(** C4: for every key, value and internal failure (client unavailable,
    transport error, deserialization or serialization error), no operation of
    the Cache Client raises to its caller; on such a failure [get] answers
    absent, [set] and [delete] answer [False]. *)
Theorem cache_client_never_raises {J : Json} (op : cache_op) (w : World) :
  (exists v w', perform op w = (Ok v, w')) /\
  (cache_failure w op -> fst (perform op w) = Ok (failure_value op)).
Proof.
  split.
  - destruct (perform_returns op w) as (v & w' & Hrun & _). eauto.
  - apply perform_failure.
Qed.

Lemma cache_client_never_raises_witness :
  fst (perform (J := Samples.sample_json) (OpSet "books:list:0:100" (PList []) 300)
         (Samples.with_redis_faults [Some (NotSent "Connection refused")] Samples.w0)) =
  Ok (PBool false).
Proof.
  apply (proj2 (cache_client_never_raises (J := Samples.sample_json)
                  (OpSet "books:list:0:100" (PList []) 300)
                  (Samples.with_redis_faults [Some (NotSent "Connection refused")] Samples.w0))).
  apply (transport_error _ _ (NotSent "Connection refused")). reflexivity.
Defined.

Lemma perform_all_keeps_client {J : Json} ops w :
  exists w', perform_all ops w = (Ok tt, w') /\ redis_client w' = redis_client w.
Proof.
  revert w. induction ops as [| op ops IH]; intros w.
  - exists w. split; reflexivity.
  - unfold perform_all. simpl. unfold bind at 1 2. unfold ret at 1.
    destruct (perform_returns op w) as (v & w1 & -> & Hc).
    destruct (IH w1) as (w2 & Hrun & Hc2).
    exists w2. split; [exact Hrun | congruence].
Qed.

(** C10: the availability of the Cache Client is fixed at construction: after
    any sequence of [get], [set] and [delete], whatever their outcomes,
    [is_available()] answers what it answered right after the constructor's
    connectivity probe. *)
Theorem availability_fixed_at_construction {J : Json} (ops : list cache_op) (w0 : World) :
  let constructed := snd (CacheService.__init__ w0) in
  fst (CacheService.is_available (snd (perform_all ops constructed))) =
  fst (CacheService.is_available constructed).
Proof.
  intros constructed.
  destruct (perform_all_keeps_client ops constructed) as (w' & -> & Hc).
  unfold_cache. simpl. rewrite Hc. reflexivity.
Qed.

(** ** The model at work *)

Example listing_on_a_cold_cache :
  fst (Api.get_books (J := Samples.sample_json) 0 100 Samples.w0) =
  Ok (FromGateway [Samples.dune; Samples.emma]).
Proof. vm_compute. reflexivity. Qed.

Example listing_after_repopulation :
  let warm := snd (Api.get_books (J := Samples.sample_json) 0 100 Samples.w0) in
  store (redis warm) !! "books:list:0:100" =
    Some (300, Samples.dumps (PList [book_dict Samples.dune; book_dict Samples.emma])).
Proof. vm_compute. reflexivity. Qed.

Example creation_invalidates_with_redis_down :
  let w := with_redis_client None Samples.w0 in
  status_code 201 (fst (Api.create_book Samples.ulysses w)) = 201 /\
  cache_deletes (snd (Api.create_book Samples.ulysses w)) =
    ["books:list:0:100"; "books:list:0:10"; "books:list:0:50"] /\
  length (books (database (snd (Api.create_book Samples.ulysses w)))) = 3%nat.
Proof. vm_compute. repeat split; reflexivity. Qed.

Example review_of_a_known_book :
  status_code 201 (fst (Api.create_book_review 2 Samples.praise Samples.w0)) = 201 /\
  length (reviews (database (snd (Api.create_book_review 2 Samples.praise Samples.w0)))) = 1%nat.
Proof. vm_compute. split; reflexivity. Qed.

Example probe_fails_then_client_unavailable :
  fst (CacheService.is_available
         (snd (CacheService.__init__
                 (Samples.with_redis_faults [Some (NotSent "Connection refused")] Samples.w0)))) =
  Ok false.
Proof. vm_compute. reflexivity. Qed.

(** ** The gateway *)

Lemma gateway_get_books_run skip limit w :
  BookService.get_books skip limit w =
  (match next_db_fault w with
   | Some f => Raise (exn_of_fault f)
   | None => Ok (window skip limit w)
   end,
   consume_db_outcome (with_calls (calls w ++ [GatewayGetBooks skip limit]) w)).
Proof.
  unfold BookService.get_books, Session.query_books_all, Session.round_trip,
    bind, record, read. simpl.
  change (next_db_fault (with_calls _ w)) with (next_db_fault w).
  destruct (next_db_fault w); reflexivity.
Qed.

Lemma next_db_fault_database w w' :
  database w' = database w -> next_db_fault w' = next_db_fault w.
Proof. unfold next_db_fault. intros ->. reflexivity. Qed.

Lemma window_database skip limit w w' :
  database w' = database w -> window skip limit w' = window skip limit w.
Proof. unfold window. intros ->. reflexivity. Qed.

(** ** Listing books *)

(** The run of [get_books] when the cache reports absent, in full. *)
Lemma get_books_on_miss {J : Json} skip limit w :
  fst (CacheService.get (cache_key skip limit) w) = Ok PNone ->
  exists w',
    Api.get_books skip limit w = (miss_response skip limit w, w') /\
    calls w' = calls w ++ miss_calls skip limit w.
Proof.
  intros Hmiss.
  destruct (get_returns (cache_key skip limit) w) as (v & w1 & Hget & Hc1 & Hd1 & Hcalls1).
  rewrite Hget in Hmiss. simpl in Hmiss. injection Hmiss as ->.
  unfold Api.get_books, try_except, bind. rewrite Hget. simpl.
  unfold log at 1. rewrite gateway_get_books_run.
  unfold miss_response, miss_calls.
  rewrite (next_db_fault_database w) by (simpl; exact Hd1).
  destruct (next_db_fault w) as [f1 |] eqn:Hf1.
  - (* the load raises: the handler loads again *)
    rewrite gateway_get_books_run.
    match goal with |- context [next_db_fault ?x] => remember x as w2 eqn:Ew2 end.
    assert (Hd2 : database w2 = with_db_faults (tail (db_faults (database w))) (database w)).
    { rewrite Ew2. simpl. rewrite Hd1. reflexivity. }
    assert (Hw2 : window skip limit w2 = window skip limit w).
    { unfold window. rewrite Hd2. reflexivity. }
    assert (Hcalls2 : calls w2 = calls w ++ [CacheGet (cache_key skip limit); GatewayGetBooks skip limit]).
    { rewrite Ew2. simpl. rewrite Hcalls1, <- app_assoc. reflexivity. }
    clear Ew2.
    unfold next_db_fault at 1. rewrite Hd2. simpl.
    unfold next_db_fault in Hf1.
    destruct (db_faults (database w)) as [| [g1 |] rest]; try discriminate.
    simpl. destruct rest as [| [f2 |] rest]; simpl.
    + eexists. split; [rewrite Hw2; reflexivity |].
      simpl. rewrite Hcalls2, <- app_assoc. reflexivity.
    + eexists. split; [reflexivity |].
      simpl. rewrite Hcalls2, <- app_assoc. reflexivity.
    + eexists. split; [rewrite Hw2; reflexivity |].
      simpl. rewrite Hcalls2, <- app_assoc. reflexivity.
  - (* the load returns: repopulate, answer the rows *)
    match goal with |- context [CacheService.set ?k ?v ?e ?x] =>
      destruct (set_returns k v e x) as (b & w3 & Hset & Hc3 & Hd3 & Hcalls3)
    end.
    rewrite Hset.
    match goal with |- context [window skip limit (with_logs ?l w1)] =>
      rewrite (window_database skip limit w (with_logs l w1)) in * by exact Hd1
    end.
    assert (Hr : miss_response skip limit w = Ok (FromGateway (window skip limit w))).
    { unfold miss_response. unfold next_db_fault in Hf1.
      destruct (db_faults (database w)) as [| [g1 |] rest]; try discriminate; reflexivity. }
    unfold miss_response in Hr. rewrite Hr.
    simpl in Hcalls3. rewrite Hcalls1 in Hcalls3.
    destruct b; simpl; eexists; (split; [reflexivity |]); simpl;
      rewrite Hcalls3, <- !app_assoc; reflexivity.
Qed.

Lemma gateway_calls_app w l :
  List.filter is_gateway_call (calls w ++ l) = gateway_calls w ++ List.filter is_gateway_call l.
Proof. unfold gateway_calls. apply List.filter_app. Qed.

(** A cached value that has a length is the answer, whatever its shape. *)
Lemma sized_value_served_from_cache {J : Json} (skip limit : Z) (w : World) (v : pyval) (n : Z) :
  fst (CacheService.get (cache_key skip limit) w) = Ok v ->
  v <> PNone ->
  len v = Ok n ->
  served_from_cache skip limit w v.
Proof.
  intros Hhit Hsome Hlen.
  destruct (get_returns (cache_key skip limit) w) as (v' & w1 & Hget & _ & _ & Hcalls1).
  rewrite Hget in Hhit. simpl in Hhit. injection Hhit as ->.
  unfold served_from_cache, Api.get_books, try_except, bind. rewrite Hget.
  destruct v; try contradiction; try discriminate; simpl.
  all: split; [reflexivity |].
  all: unfold gateway_calls at 1; simpl; rewrite Hcalls1, gateway_calls_app; simpl.
  all: apply app_nil_r.
Qed.

(** C1: for every [(skip, limit)], when the Cache Client's [get] returns a
    value for the computed key -- a list of books, as every value stored
    under a list key is, the empty list included -- [get_books] returns
    exactly that value and makes no call to the Persistence Gateway for that
    request. *)
Theorem cache_hit_returns_cached_value {J : Json} (skip limit : Z) (w : World)
    (cached_books : list pyval) :
  fst (CacheService.get (cache_key skip limit) w) = Ok (PList cached_books) ->
  served_from_cache skip limit w (PList cached_books).
Proof.
  intros Hhit.
  apply (sized_value_served_from_cache skip limit w (PList cached_books)
           (Z.of_nat (length cached_books)) Hhit).
  - discriminate.
  - reflexivity.
Qed.

Lemma cache_hit_returns_cached_value_witness :
  served_from_cache (J := Samples.sample_json) 0 100
    (Samples.with_store {[ "books:list:0:100" := (300, "[]") ]} Samples.w0)
    (PList []).
Proof.
  apply (cache_hit_returns_cached_value (J := Samples.sample_json) 0 100 _ []).
  vm_compute. reflexivity.
Defined.

(** C2 as stated fails: on a miss whose load raises once, the handler answers
    with the rows of a second load and never asks the cache to store them. *)
Lemma failed_load_skips_repopulation :
  let w := Samples.with_faults
             [Some (OperationalFault "server closed the connection unexpectedly")]
             Samples.w0 in
  fst (CacheService.get (J := Samples.sample_json) (cache_key 0 100) w) = Ok PNone /\
  fst (Api.get_books (J := Samples.sample_json) 0 100 w) =
    Ok (FromGateway [Samples.dune; Samples.emma]) /\
  calls (snd (Api.get_books (J := Samples.sample_json) 0 100 w)) =
    [CacheGet "books:list:0:100"; GatewayGetBooks 0 100; GatewayGetBooks 0 100] /\
  ~ repopulated_on_miss (J := Samples.sample_json) 0 100 w.
Proof.
  split; [vm_compute; reflexivity |].
  split; [vm_compute; reflexivity |].
  split; [vm_compute; reflexivity |].
  intros Hclaim.
  destruct Hclaim as (_ & value & Hin); [vm_compute; reflexivity |].
  vm_compute in Hin.
  destruct Hin as [H | [H | [H | []]]]; discriminate H.
Qed.

(** C2 (amended): for every [(skip, limit)], when the Cache Client reports
    absent (a true miss or an internal cache error alike) and the gateway load
    returns, [get_books] returns the rows the gateway holds for that window,
    and the cache is asked to store them under that key with a TTL of 300
    seconds. *)
Theorem cache_miss_served_from_gateway {J : Json} (skip limit : Z) (w : World)
    (rows : list Book.t) :
  fst (CacheService.get (cache_key skip limit) w) = Ok PNone ->
  fst (BookService.get_books skip limit w) = Ok rows ->
  fst (Api.get_books skip limit w) = Ok (FromGateway rows) /\
  calls (snd (Api.get_books skip limit w)) =
    calls w ++
    [CacheGet (cache_key skip limit);
     GatewayGetBooks skip limit;
     CacheSet (cache_key skip limit) (PList (map book_dict rows)) 300].
Proof.
  intros Hmiss Hload.
  destruct (get_books_on_miss skip limit w Hmiss) as (w' & -> & Hcalls).
  rewrite gateway_get_books_run in Hload. simpl in Hload.
  simpl. rewrite Hcalls. unfold miss_response, miss_calls.
  destruct (next_db_fault w) as [f |] eqn:Hup; [discriminate Hload |].
  injection Hload as <-.
  split; [| reflexivity].
  unfold next_db_fault in Hup.
  destruct (db_faults (database w)) as [| [f |] rest]; try discriminate; reflexivity.
Qed.

Lemma cache_miss_served_from_gateway_witness :
  let w := Samples.with_redis_faults [Some (NotSent "Connection reset by peer")] Samples.w0 in
  fst (Api.get_books (J := Samples.sample_json) 1 1 w) = Ok (FromGateway [Samples.emma]) /\
  calls (snd (Api.get_books (J := Samples.sample_json) 1 1 w)) =
    [CacheGet "books:list:1:1"; GatewayGetBooks 1 1;
     CacheSet "books:list:1:1" (PList [book_dict Samples.emma]) 300].
Proof.
  apply (cache_miss_served_from_gateway (J := Samples.sample_json) 1 1
           (Samples.with_redis_faults [Some (NotSent "Connection reset by peer")] Samples.w0)
           [Samples.emma]).
  - vm_compute. reflexivity.
  - vm_compute. reflexivity.
Defined.

(** C3 as stated fails: when the first load raises and the second returns, the
    request succeeds. *)
Lemma transient_load_failure_recovered :
  ~ load_failure_is_fatal (J := Samples.sample_json) 0 100
      (Samples.with_faults [Some (OperationalFault "server closed the connection unexpectedly")]
         Samples.w0).
Proof.
  intros Hfatal.
  assert (Hs : status_code 200
                 (fst (Api.get_books (J := Samples.sample_json) 0 100
                         (Samples.with_faults
                            [Some (OperationalFault "server closed the connection unexpectedly")]
                            Samples.w0))) = 500).
  { apply Hfatal; [vm_compute; reflexivity | discriminate]. }
  vm_compute in Hs. discriminate Hs.
Qed.

(** C3 (amended): when the gateway load of step 3 raises, [get_books] loads
    the window a second time, without repopulating the cache; the request
    surfaces as a server error (500) when that second load raises too, and
    otherwise returns the rows of the second load. *)
Theorem load_failure_retried_once {J : Json} (skip limit : Z) (w : World)
    (f : db_fault) (rest : list (option db_fault)) :
  fst (CacheService.get (cache_key skip limit) w) = Ok PNone ->
  db_faults (database w) = Some f :: rest ->
  fst (Api.get_books skip limit w) =
    match rest with
    | Some f2 :: _ =>
        Raise (HTTPException 500 ("Internal server error: " +:+ str (exn_of_fault f2)))
    | _ => Ok (FromGateway (window skip limit w))
    end /\
  calls (snd (Api.get_books skip limit w)) =
    calls w ++
    [CacheGet (cache_key skip limit); GatewayGetBooks skip limit; GatewayGetBooks skip limit].
Proof.
  intros Hmiss Hfaults.
  destruct (get_books_on_miss skip limit w Hmiss) as (w' & -> & Hcalls).
  simpl. rewrite Hcalls. unfold miss_response, miss_calls, next_db_fault.
  rewrite Hfaults. split; reflexivity.
Qed.

Lemma load_failure_retried_once_witness :
  let w := Samples.with_faults
             [Some (OperationalFault "connection refused");
              Some (OperationalFault "connection refused again")] Samples.w0 in
  fst (Api.get_books (J := Samples.sample_json) 0 100 w) =
    Raise (HTTPException 500 "Internal server error: connection refused again") /\
  calls (snd (Api.get_books (J := Samples.sample_json) 0 100 w)) =
    [CacheGet "books:list:0:100"; GatewayGetBooks 0 100; GatewayGetBooks 0 100].
Proof.
  apply (load_failure_retried_once (J := Samples.sample_json) 0 100
           (Samples.with_faults
              [Some (OperationalFault "connection refused");
               Some (OperationalFault "connection refused again")] Samples.w0)
           (OperationalFault "connection refused")
           [Some (OperationalFault "connection refused again")]).
  - vm_compute. reflexivity.
  - reflexivity.
Defined.

Lemma miss_response_database skip limit w1 w2 :
  database w1 = database w2 -> miss_response skip limit w1 = miss_response skip limit w2.
Proof. unfold miss_response, window. intros ->. reflexivity. Qed.

(** C5: for every [(skip, limit)] and every state of the gateway, the status
    and the body [get_books] answers with on a miss do not depend on what
    happens to the repopulation: two runs over the same database, in both of
    which the cache reports absent, answer alike whether [set] stores the rows,
    finds the client unavailable, or fails inside. *)
Theorem repopulation_failure_invisible {J : Json} (skip limit : Z) (w1 w2 : World) :
  database w1 = database w2 ->
  fst (CacheService.get (cache_key skip limit) w1) = Ok PNone ->
  fst (CacheService.get (cache_key skip limit) w2) = Ok PNone ->
  fst (Api.get_books skip limit w1) = fst (Api.get_books skip limit w2) /\
  status_code 200 (fst (Api.get_books skip limit w1)) =
  status_code 200 (fst (Api.get_books skip limit w2)).
Proof.
  intros Hdb Hmiss1 Hmiss2.
  destruct (get_books_on_miss skip limit w1 Hmiss1) as (w1' & -> & _).
  destruct (get_books_on_miss skip limit w2 Hmiss2) as (w2' & -> & _).
  simpl. rewrite (miss_response_database skip limit w1 w2 Hdb). split; reflexivity.
Qed.

Lemma repopulation_failure_invisible_witness :
  let stored := Samples.w0 in
  let refused := Samples.with_redis_faults [None; Some (NotSent "Timeout writing to socket")] Samples.w0 in
  In (INFO, "Successfully cached 2 books")
    (logs (snd (Api.get_books (J := Samples.sample_json) 0 100 stored))) /\
  In (WARNING, "Failed to cache books data")
    (logs (snd (Api.get_books (J := Samples.sample_json) 0 100 refused))) /\
  fst (Api.get_books (J := Samples.sample_json) 0 100 stored) =
  fst (Api.get_books (J := Samples.sample_json) 0 100 refused).
Proof.
  split; [vm_compute; tauto |].
  split; [vm_compute; tauto |].
  apply (repopulation_failure_invisible (J := Samples.sample_json) 0 100 Samples.w0
           (Samples.with_redis_faults [None; Some (NotSent "Timeout writing to socket")] Samples.w0)).
  - reflexivity.
  - vm_compute. reflexivity.
  - vm_compute. reflexivity.
Defined.

(** ** The cache key *)

Lemma has_char_cons c c' s :
  has_char c (String c' s) = Ascii.eqb c c' || has_char c s.
Proof. reflexivity. Qed.

Lemma pretty_N_char_no_colon x : Ascii.eqb ":" (pretty_N_char x) = false.
Proof. unfold pretty_N_char. repeat case_match; reflexivity. Qed.

Lemma pretty_N_go_no_colon x s :
  has_char ":" s = false -> has_char ":" (pretty_N_go x s) = false.
Proof.
  revert s. induction (N.lt_wf_0 x) as [x _ IH]. intros s Hs.
  destruct (decide (0 < x)%N) as [Hpos | Hzero].
  - rewrite pretty_N_go_step by exact Hpos.
    apply IH; [apply N.div_lt; [exact Hpos | reflexivity] |].
    rewrite has_char_cons, pretty_N_char_no_colon. exact Hs.
  - assert (x = 0%N) as -> by lia. rewrite pretty_N_go_0. exact Hs.
Qed.

Lemma pretty_N_no_colon (x : N) : has_char ":" (pretty x) = false.
Proof.
  unfold pretty, pretty_N. case_decide; [reflexivity |].
  apply pretty_N_go_no_colon. reflexivity.
Qed.

Lemma pretty_Z_no_colon (x : Z) : has_char ":" (pretty x) = false.
Proof.
  destruct x as [| p | p]; unfold pretty, pretty_Z; [reflexivity | |].
  - apply pretty_N_no_colon.
  - change (has_char ":" (String "-" (pretty (Npos p))) = false).
    simpl. apply pretty_N_no_colon.
Qed.

(** A text is cut at its first colon in one way only. *)
Lemma cut_at_colon a b c d :
  has_char ":" a = false -> has_char ":" c = false ->
  a +:+ ":" +:+ b = c +:+ ":" +:+ d -> a = c /\ b = d.
Proof.
  revert c. induction a as [| x a IH]; intros [| y c] Ha Hc Heq.
  - simpl in Heq. injection Heq as Heq. split; [reflexivity | exact Heq].
  - simpl in Heq. injection Heq as Hy _. subst y.
    rewrite has_char_cons in Hc. discriminate Hc.
  - simpl in Heq. injection Heq as Hx _. subst x.
    rewrite has_char_cons in Ha. discriminate Ha.
  - simpl in Heq. injection Heq as Hxy Heq. subst y.
    rewrite has_char_cons in Ha, Hc.
    apply orb_false_elim in Ha as [_ Ha]. apply orb_false_elim in Hc as [_ Hc].
    destruct (IH c Ha Hc Heq) as [-> ->]. split; reflexivity.
Qed.

Lemma cache_key_inj skip1 limit1 skip2 limit2 :
  cache_key skip1 limit1 = cache_key skip2 limit2 -> skip1 = skip2 /\ limit1 = limit2.
Proof.
  unfold cache_key. intros Heq.
  pose proof (pretty_Z_no_colon skip1) as H1.
  pose proof (pretty_Z_no_colon skip2) as H2.
  remember (pretty skip1) as s1 eqn:E1.
  remember (pretty skip2) as s2 eqn:E2.
  assert (Hcut : s1 +:+ ":" +:+ pretty limit1 = s2 +:+ ":" +:+ pretty limit2).
  { simpl in Heq. injection Heq as Heq. exact Heq. }
  apply cut_at_colon in Hcut as [Hs Hl]; [| exact H1 | exact H2].
  subst s1 s2. split; apply (inj pretty); assumption.
Qed.

(** C9: the cache key is an injective function of the pagination window: two
    distinct windows [(skip, limit)] with [skip >= 0] and [1 <= limit <= 1000]
    have distinct keys. *)
Theorem cache_key_injective (skip1 limit1 skip2 limit2 : Z) :
  valid_window skip1 limit1 ->
  valid_window skip2 limit2 ->
  (skip1, limit1) <> (skip2, limit2) ->
  cache_key skip1 limit1 <> cache_key skip2 limit2.
Proof.
  intros _ _ Hne Heq. apply Hne.
  destruct (cache_key_inj _ _ _ _ Heq) as [-> ->]. reflexivity.
Qed.

Lemma cache_key_injective_witness : cache_key 1 10 <> cache_key 11 1.
Proof.
  apply (cache_key_injective 1 10 11 1).
  - unfold valid_window. lia.
  - unfold valid_window. lia.
  - intros Heq. injection Heq as Heq _. lia.
Defined.

(** ** Creating a book *)

Ltac unfold_gateway :=
  unfold BookService.create_book, BookService.create_review, BookService.get_book,
    BookService.get_book_reviews,
    Session.add, Session.commit, Session.refresh_book, Session.refresh_review,
    Session.query_book_first, Session.query_reviews_all, Session.round_trip,
    Session.rollback, Session.invalid_request,
    bind, try_except, ret, raise, lift, log, record, read.

(** The gateway reads and writes the database only: its result does not
    depend on the log. *)
Lemma gateway_create_book_logs book l w :
  BookService.create_book book (with_logs l w) =
  (fst (BookService.create_book book w),
   with_logs l (snd (BookService.create_book book w))).
Proof.
  unfold_gateway. simpl.
  change (next_db_fault (with_database _ (with_calls _ (with_logs l w))))
    with (next_db_fault (with_database
            (with_session (session (database w) ++ [Pending (NewBook book)]) (database w))
            (with_calls (calls w ++ [GatewayCreateBook book]) w))).
  destruct (next_db_fault _); simpl; [reflexivity |].
  destruct (flush _ _) as [[objs | e] d']; simpl; [| reflexivity].
  destruct (objs !! _) as [[row | [|] pk |] |]; simpl; try reflexivity.
  match goal with |- context [next_db_fault ?x] =>
    match x with context [with_logs l w] =>
      change (next_db_fault x) with
        (next_db_fault (with_database (with_session objs d')
           (consume_db_outcome
              (with_database
                 (with_session (session (database w) ++ [Pending (NewBook book)]) (database w))
                 (with_calls (calls w ++ [GatewayCreateBook book]) w)))))
    end
  end.
  destruct (next_db_fault _); simpl; [reflexivity |].
  destruct (find _ _); reflexivity.
Qed.

(** The gateway leaves the cache alone and adds its own call to the record. *)
Lemma gateway_create_book_frame book w :
  let w' := snd (BookService.create_book book w) in
  redis_client w' = redis_client w /\ redis w' = redis w /\
  logs w' = logs w /\
  calls w' = calls w ++ [GatewayCreateBook book].
Proof.
  unfold_gateway. simpl.
  destruct (next_db_fault _); simpl; [repeat split; reflexivity |].
  destruct (flush _ _) as [[objs | e] d']; simpl; [| repeat split; reflexivity].
  destruct (objs !! _) as [[row | [|] pk |] |]; simpl; try (repeat split; reflexivity).
  destruct (next_db_fault _); simpl; [repeat split; reflexivity |].
  destruct (find _ _); repeat split; reflexivity.
Qed.

Lemma run_bind {A B} (m : M A) (f : A -> M B) w :
  bind m f w =
  match m w with
  | (Ok a, w') => f a w'
  | (Raise e, w') => (Raise e, w')
  end.
Proof. reflexivity. Qed.

Lemma run_try_except {A} (body : M A) (handler : exn -> M A) w :
  try_except body handler w =
  match body w with
  | (Ok a, w') => (Ok a, w')
  | (Raise e, w') => handler e w'
  end.
Proof. reflexivity. Qed.

Lemma for_each_cons {A} (x : A) xs body :
  for_each (x :: xs) body = (body x;;; for_each xs body).
Proof. reflexivity. Qed.

#[local] Arguments for_each : simpl never.

Lemma invalidation_run keys w :
  exists w',
    for_each keys (fun cache_key => CacheService.delete cache_key;;; ret tt) w = (Ok tt, w') /\
    redis_client w' = redis_client w /\
    database w' = database w /\
    calls w' = calls w ++ map CacheDelete keys.
Proof.
  revert w. induction keys as [| key keys IH]; intros w.
  - exists w. simpl. rewrite app_nil_r. repeat split; reflexivity.
  - rewrite for_each_cons, !run_bind.
    destruct (delete_returns key w) as (b & w1 & -> & Hc1 & Hd1 & Hcalls1).
    unfold ret at 1.
    destruct (IH w1) as (w2 & -> & Hc2 & Hd2 & Hcalls2).
    exists w2. split; [reflexivity |].
    rewrite Hc2, Hd2, Hcalls2, Hcalls1, <- app_assoc. repeat split; assumption.
Qed.

Lemma cache_deletes_app w l :
  omap deleted_key (calls w ++ l) = cache_deletes w ++ omap deleted_key l.
Proof. unfold cache_deletes. apply omap_app. Qed.

Lemma deleted_keys keys : omap deleted_key (map CacheDelete keys) = keys.
Proof.
  induction keys as [| key keys IH]; [reflexivity |].
  change (key :: omap deleted_key (map CacheDelete keys) = key :: keys).
  f_equal. exact IH.
Qed.

(** The run of [create_book], in full: the gateway decides the answer; the
    deletions follow a creation that returned, a rollback follows one that
    raised. *)
Lemma create_book_run book w :
  exists w',
    Api.create_book book w =
      (match fst (BookService.create_book book w) with
       | Ok new_book => Ok new_book
       | Raise e => Raise (creation_error e)
       end, w') /\
    calls w' =
      calls w ++ GatewayCreateBook book ::
      match fst (BookService.create_book book w) with
      | Ok _ => map CacheDelete cache_keys_to_invalidate
      | Raise _ => []
      end /\
    database w' =
      match fst (BookService.create_book book w) with
      | Ok _ => database (snd (BookService.create_book book w))
      | Raise _ =>
          let d := database (snd (BookService.create_book book w)) in
          with_session (map expunge_pending (session d)) d
      end.
Proof.
  pose proof (gateway_create_book_frame book w) as (Hc & Hr & Hl & Hcalls).
  unfold Api.create_book. rewrite run_bind. unfold log at 1.
  rewrite run_try_except, run_bind. unfold log at 1.
  rewrite run_bind, !gateway_create_book_logs.
  destruct (BookService.create_book book w) as [[new_book | e] wg]; simpl fst; simpl snd;
    cbv beta iota.
  - rewrite run_bind. unfold log at 1.
    rewrite run_bind, run_try_except, run_bind.
    match goal with |- context [for_each _ _ ?x] =>
      destruct (invalidation_run cache_keys_to_invalidate x) as (wd & -> & _ & Hdd & Hcallsd)
    end.
    unfold log at 1. unfold ret at 1.
    eexists. split; [reflexivity |]. simpl. simpl in Hcalls.
    rewrite Hcallsd, Hdd. simpl. rewrite Hcalls, <- app_assoc.
    split; reflexivity.
  - simpl in Hcalls.
    destruct e as [msg | msg | msg | code detail]; simpl.
    1, 2, 4: eexists; split; [reflexivity |]; simpl; rewrite Hcalls;
      split; reflexivity.
    repeat case_match; simpl; eexists; (split; [reflexivity |]); simpl; rewrite Hcalls;
      split; reflexivity.
Qed.

(** C6: [create_book] attempts the deletion of the fixed invalidation keys if
    and only if the creation at the gateway succeeded; all of them are
    attempted, whatever the outcome of each; and the answer is the created book
    with status 201, whatever the deletions did. *)
Theorem invalidation_follows_creation (book : BookCreate.t) (w : World) :
  match fst (BookService.create_book book w) with
  | Ok new_book =>
      fst (Api.create_book book w) = Ok new_book /\
      status_code 201 (fst (Api.create_book book w)) = 201 /\
      cache_deletes (snd (Api.create_book book w)) =
        cache_deletes w ++ cache_keys_to_invalidate
  | Raise _ =>
      (exists e, fst (Api.create_book book w) = Raise e) /\
      cache_deletes (snd (Api.create_book book w)) = cache_deletes w
  end.
Proof.
  destruct (create_book_run book w) as (w' & -> & Hcalls & _).
  destruct (fst (BookService.create_book book w)) as [new_book | e]; simpl.
  - split; [reflexivity |]. split; [reflexivity |].
    unfold cache_deletes at 1. rewrite Hcalls, cache_deletes_app.
    change (cache_deletes w ++ omap deleted_key (map CacheDelete cache_keys_to_invalidate) =
            cache_deletes w ++ cache_keys_to_invalidate).
    rewrite deleted_keys. reflexivity.
  - split; [eexists; reflexivity |].
    unfold cache_deletes at 1. rewrite Hcalls, cache_deletes_app. apply app_nil_r.
Qed.

Lemma unique_violation_names_index value :
  contains "duplicate key value violates unique constraint"
    (unique_violation "ix_books_isbn" "isbn" value) = true /\
  contains "ix_books_isbn" (unique_violation "ix_books_isbn" "isbn" value) = true.
Proof. split; reflexivity. Qed.

(** The gateway on a duplicate isbn: the INSERT is refused, no row is added,
    and the failed commit has expunged the new object. *)
Lemma gateway_create_duplicate book value w :
  BookCreate.isbn book = Some value ->
  existsb (same_isbn value) (books (database w)) = true ->
  session (database w) = [] ->
  next_db_fault w = None ->
  fst (BookService.create_book book w) =
    Raise (IntegrityError (unique_violation "ix_books_isbn" "isbn" value)) /\
  books (database (snd (BookService.create_book book w))) = books (database w) /\
  reviews (database (snd (BookService.create_book book w))) = reviews (database w) /\
  session (database (snd (BookService.create_book book w))) = [Expunged].
Proof.
  intros Hisbn Hdup Hfresh Hup.
  unfold_gateway. simpl.
  change (next_db_fault (with_database _ (with_calls _ w))) with (next_db_fault w).
  rewrite Hup, Hfresh. simpl. rewrite Hisbn, Hdup. simpl.
  repeat split; reflexivity.
Qed.

(** The gateway when the commit itself raises. *)
Lemma gateway_create_fault book f w :
  next_db_fault w = Some f ->
  fst (BookService.create_book book w) = Raise (exn_of_fault f).
Proof.
  intros Hf. unfold_gateway. simpl.
  change (next_db_fault (with_database _ (with_calls _ w))) with (next_db_fault w).
  rewrite Hf. reflexivity.
Qed.

(** C7: creating a book whose isbn is already in [books] is answered with
    status 400 and the message of the isbn conflict, which the handler tells
    from the other constraint violations by the name of the violated index;
    the transaction is rolled back: the tables are as before and nothing stays
    pending in the session. *)
Theorem duplicate_isbn_rejected (book : BookCreate.t) (value : string) (w : World) :
  BookCreate.isbn book = Some value ->
  existsb (same_isbn value) (books (database w)) = true ->
  session (database w) = [] ->
  next_db_fault w = None ->
  fst (Api.create_book book w) =
    Raise (HTTPException 400 "A book with this ISBN already exists") /\
  status_code 201 (fst (Api.create_book book w)) = 400 /\
  books (database (snd (Api.create_book book w))) = books (database w) /\
  reviews (database (snd (Api.create_book book w))) = reviews (database w) /\
  session (database (snd (Api.create_book book w))) = [Expunged] /\
  (forall w2 msg,
     next_db_fault w2 = Some (IntegrityFault msg) ->
     contains "ix_books_isbn" msg = false ->
     exists detail,
       fst (Api.create_book book w2) = Raise (HTTPException 400 detail) /\
       detail <> "A book with this ISBN already exists").
Proof.
  intros Hisbn Hdup Hfresh Hup.
  destruct (gateway_create_duplicate book value w Hisbn Hdup Hfresh Hup)
    as (Hraise & Hbooks & Hreviews & Hsession).
  assert (Hrun : fst (Api.create_book book w) =
                   Raise (HTTPException 400 "A book with this ISBN already exists") /\
                 database (snd (Api.create_book book w)) =
                   with_session [Expunged]
                     (database (snd (BookService.create_book book w)))).
  { destruct (create_book_run book w) as (w' & -> & _ & Hdb).
    rewrite Hraise in *. unfold creation_error.
    rewrite (proj1 (unique_violation_names_index value)).
    rewrite (proj2 (unique_violation_names_index value)).
    simpl. rewrite Hdb. simpl. rewrite Hsession. split; reflexivity. }
  destruct Hrun as [Hr Hdb]. rewrite Hr, Hdb. simpl.
  repeat (split; [reflexivity || assumption |]).
  intros w2 msg Hfault Hother.
  destruct (create_book_run book w2) as (w2' & -> & _ & _).
  rewrite (gateway_create_fault book _ w2 Hfault). simpl. rewrite Hother.
  destruct (contains "duplicate key value violates unique constraint" msg);
    eexists; (split; [reflexivity | discriminate]).
Qed.

Lemma duplicate_isbn_rejected_witness :
  fst (Api.create_book Samples.dune_again Samples.w0) =
    Raise (HTTPException 400 "A book with this ISBN already exists") /\
  books (database (snd (Api.create_book Samples.dune_again Samples.w0))) =
    [Samples.dune; Samples.emma].
Proof.
  destruct (duplicate_isbn_rejected Samples.dune_again "9780441013593" Samples.w0)
    as (Hr & _ & Hb & _); try reflexivity.
  split; [exact Hr | exact Hb].
Defined.

(** ** Reviews *)

Lemma find_absent book_id w :
  book_absent book_id w -> List.find (has_id book_id) (books (database w)) = None.
Proof.
  unfold book_absent. induction (books (database w)) as [| b bs IH]; intros Habs.
  - reflexivity.
  - simpl. unfold has_id at 1.
    destruct (Z.eqb_spec (Book.id b) book_id) as [Heq | _].
    + exfalso. apply (Habs b); [left; reflexivity | exact Heq].
    + apply IH. intros b' Hin. apply Habs. right. exact Hin.
Qed.

Lemma gateway_get_book_run book_id w :
  BookService.get_book book_id w =
  (match next_db_fault w with
   | Some f => Raise (exn_of_fault f)
   | None => Ok (List.find (has_id book_id) (books (database w)))
   end,
   consume_db_outcome (with_calls (calls w ++ [GatewayGetBook book_id]) w)).
Proof.
  unfold_gateway. simpl.
  change (next_db_fault (with_calls _ w)) with (next_db_fault w).
  destruct (next_db_fault w); reflexivity.
Qed.

(** C8: for every book id absent from the gateway, [create_book_review] and
    [get_book_reviews] answer not-found (404) once the lookup has returned, and
    nothing is written: the handler stops before any other call. *)
Theorem missing_book_short_circuits (book_id : Z) (review : ReviewCreate.t)
    (skip limit : Z) (w : World) :
  book_absent book_id w ->
  next_db_fault w = None ->
  not_found_without_write 201 book_id w (Api.create_book_review book_id review w) /\
  not_found_without_write 200 book_id w (Api.get_book_reviews book_id skip limit w).
Proof.
  intros Habs Hup. apply find_absent in Habs.
  unfold not_found_without_write, Api.create_book_review, Api.get_book_reviews.
  rewrite !run_bind, gateway_get_book_run, Hup, Habs. simpl.
  repeat split; reflexivity.
Qed.

Lemma missing_book_short_circuits_witness :
  not_found_without_write 201 7 Samples.w0
    (Api.create_book_review 7 Samples.praise Samples.w0) /\
  not_found_without_write 200 7 Samples.w0 (Api.get_book_reviews 7 0 100 Samples.w0).
Proof.
  apply (missing_book_short_circuits 7 Samples.praise 0 100 Samples.w0).
  - intros b [<- | [<- | []]]; discriminate.
  - reflexivity.
Defined.

(** * Further properties of the code *)

(** ** The Cache Client: what is stored, what is read back *)

(** Where a value answered by [get] comes from. *)
Lemma cache_hit_source {J : Json} key w v :
  fst (CacheService.get key w) = Ok v ->
  v <> PNone ->
  exists client expire text,
    redis_client w = Some client /\
    next_redis_fault w = None /\
    store (redis w) !! key = Some (expire, text) /\
    text <> "" /\
    json_loads text = Ok v.
Proof.
  unfold_cache. simpl. intros Hget Hsome.
  destruct (redis_client w) as [client |]; simpl in Hget;
    [| injection Hget as <-; contradiction].
  change (next_redis_fault (with_calls (calls w ++ [CacheGet key]) w))
    with (next_redis_fault w) in Hget.
  destruct (next_redis_fault w) as [[msg | msg] |] eqn:Hup; simpl in Hget;
    [injection Hget as <-; contradiction | injection Hget as <-; contradiction |].
  destruct (store (redis w) !! key) as [[expire text] |] eqn:Hstore; simpl in Hget;
    [| injection Hget as <-; contradiction].
  destruct text as [| c text]; simpl in Hget; [injection Hget as <-; contradiction |].
  destruct (json_loads (String c text)) as [v' | e] eqn:Hloads; simpl in Hget;
    injection Hget as <-; [| contradiction].
  exists client, expire, (String c text). repeat split; try assumption. discriminate.
Qed.

(** X1: [get] answers a value other than [None] only when the client is
    available, the round trip returned, and the store holds a text under the
    key that [json.loads] decodes to that value. *)
Theorem cache_hit_comes_from_store {J : Json} (key : string) (w : World) (v : pyval) :
  fst (CacheService.get key w) = Ok v ->
  v <> PNone ->
  exists client expire text,
    redis_client w = Some client /\
    next_redis_fault w = None /\
    store (redis w) !! key = Some (expire, text) /\
    json_loads text = Ok v.
Proof.
  intros Hget Hsome.
  destruct (cache_hit_source key w v Hget Hsome)
    as (client & expire & text & Hc & Hup & Hs & _ & Hl).
  exists client, expire, text. repeat split; assumption.
Qed.

Lemma cache_hit_comes_from_store_witness :
  exists client expire text,
    redis_client (Samples.with_store {[ "k" := (60, "42") ]} Samples.w0) = Some client /\
    next_redis_fault (Samples.with_store {[ "k" := (60, "42") ]} Samples.w0) = None /\
    store (redis (Samples.with_store {[ "k" := (60, "42") ]} Samples.w0)) !! "k"
      = Some (expire, text) /\
    json_loads (Json := Samples.sample_json) text = Ok (PInt 42).
Proof.
  apply (cache_hit_comes_from_store (J := Samples.sample_json) "k"
           (Samples.with_store {[ "k" := (60, "42") ]} Samples.w0) (PInt 42)).
  - vm_compute. reflexivity.
  - discriminate.
Defined.

(** The run of [set] when it answers [True]. *)
Lemma set_true_run {J : Json} key value expire w :
  fst (CacheService.set key value expire w) = Ok true ->
  exists client text,
    redis_client w = Some client /\
    json_dumps value = Ok text /\
    next_redis_fault w = None /\
    snd (CacheService.set key value expire w) =
      with_logs (logs w ++ [(INFO, "Cache set successful for key: " +:+ key)])
        (with_redis {| store := <[key := (expire, text)]> (store (redis w));
                       redis_faults := tail (redis_faults (redis w)) |}
           (with_calls (calls w ++ [CacheSet key value expire]) w)).
Proof.
  unfold_cache. simpl.
  destruct (redis_client w) as [client |]; simpl; [| discriminate].
  destruct (json_dumps value) as [text | e]; simpl; [| discriminate].
  change (next_redis_fault (with_calls (calls w ++ [CacheSet key value expire]) w))
    with (next_redis_fault w).
  destruct (next_redis_fault w) as [[msg | msg] |]; simpl; [discriminate | discriminate |].
  intros _. exists client, text. repeat split; reflexivity.
Qed.

(** X2: after a [set] that answered [True], the store holds the serialized
    value with its expiry under the key, and a [get] of that key whose round
    trip returns answers what [json.loads] makes of that text ([None] when
    the text is empty or is refused). *)
Theorem set_then_get {J : Json} (key : string) (value : pyval) (expire : Z) (w : World) :
  fst (CacheService.set key value expire w) = Ok true ->
  let w' := snd (CacheService.set key value expire w) in
  exists text,
    json_dumps value = Ok text /\
    store (redis w') !! key = Some (expire, text) /\
    (next_redis_fault w' = None ->
     fst (CacheService.get key w') =
       match text, json_loads text with
       | String _ _, Ok v => Ok v
       | _, _ => Ok PNone
       end).
Proof.
  intros Hset w'.
  destruct (set_true_run key value expire w Hset) as (client & text & Hc & Hd & Hup & Hw').
  exists text. split; [exact Hd |].
  subst w'. rewrite Hw'. simpl. split; [apply lookup_insert_eq |].
  intros Hup'. unfold_cache. simpl. rewrite Hc. simpl.
  match goal with |- context [next_redis_fault ?x] =>
    change (next_redis_fault x) with
      (next_redis_fault
         (with_redis {| store := <[key := (expire, text)]> (store (redis w));
                        redis_faults := tail (redis_faults (redis w)) |} w))
  end.
  change (next_redis_fault
            (with_logs (logs w ++ [(INFO, "Cache set successful for key: " +:+ key)])
               (with_redis {| store := <[key := (expire, text)]> (store (redis w));
                              redis_faults := tail (redis_faults (redis w)) |}
                  (with_calls (calls w ++ [CacheSet key value expire]) w))))
    with (next_redis_fault
            (with_redis {| store := <[key := (expire, text)]> (store (redis w));
                           redis_faults := tail (redis_faults (redis w)) |} w)) in Hup'.
  rewrite Hup'. simpl.
  rewrite lookup_insert_eq. simpl.
  destruct text as [| c text]; [reflexivity |].
  simpl. destruct (json_loads (String c text)); reflexivity.
Qed.

Lemma set_then_get_witness :
  let w' := snd (CacheService.set (J := Samples.sample_json) "k" (PInt 7) 300 Samples.w0) in
  exists text,
    json_dumps (Json := Samples.sample_json) (PInt 7) = Ok text /\
    store (redis w') !! "k" = Some (300, text) /\
    (next_redis_fault w' = None ->
     fst (CacheService.get (J := Samples.sample_json) "k" w') =
       match text, json_loads (Json := Samples.sample_json) text with
       | String _ _, Ok v => Ok v
       | _, _ => Ok PNone
       end).
Proof.
  apply (set_then_get (J := Samples.sample_json) "k" (PInt 7) 300 Samples.w0).
  vm_compute. reflexivity.
Defined.

(** X3: after a [delete] that answered [True], a [get] of the same key
    answers [None], whatever the store held and whatever the round trip
    does. *)
Theorem delete_then_get_absent {J : Json} (key : string) (w : World) :
  fst (CacheService.delete key w) = Ok true ->
  fst (CacheService.get key (snd (CacheService.delete key w))) = Ok PNone.
Proof.
  unfold_cache. simpl.
  destruct (redis_client w) as [client |] eqn:Hc; simpl; [| discriminate].
  change (next_redis_fault (with_calls (calls w ++ [CacheDelete key]) w))
    with (next_redis_fault w).
  destruct (next_redis_fault w) as [[msg | msg] |]; simpl; [discriminate | discriminate |].
  intros _. rewrite Hc. simpl.
  match goal with |- context [next_redis_fault ?x] =>
    destruct (next_redis_fault x) as [[msg | msg] |]
  end; simpl; [reflexivity | reflexivity |].
  rewrite lookup_delete_eq. reflexivity.
Qed.

Lemma delete_then_get_absent_witness :
  let w := Samples.with_store {[ "k" := (60, "42") ]} Samples.w0 in
  fst (CacheService.get (J := Samples.sample_json) "k" w) = Ok (PInt 42) /\
  fst (CacheService.get (J := Samples.sample_json) "k" (snd (CacheService.delete "k" w)))
    = Ok PNone.
Proof.
  split; [vm_compute; reflexivity |].
  apply (delete_then_get_absent (J := Samples.sample_json) "k"
           (Samples.with_store {[ "k" := (60, "42") ]} Samples.w0)).
  vm_compute. reflexivity.
Defined.

(** X4: an operation of the Cache Client leaves every other key of the store
    as it was, and [get] leaves the whole store as it was. *)
Theorem operations_touch_their_key_only {J : Json} (op : cache_op) (w : World) :
  (forall other, other <> key_of op ->
     store (redis (snd (perform op w))) !! other = store (redis w) !! other) /\
  (forall key, op = OpGet key -> store (redis (snd (perform op w))) = store (redis w)).
Proof.
  split.
  - intros other Hother.
    destruct op as [key | key value expire | key]; simpl in *; unfold_cache; simpl;
      destruct (redis_client w); simpl; try reflexivity.
    + destruct (next_redis_fault _) as [[msg | msg] |]; simpl;
        [reflexivity | reflexivity |].
      destruct (snd <$> store (redis w) !! key) as [[| c text] |]; simpl;
        try reflexivity.
      destruct (json_loads (String c text)); reflexivity.
    + destruct (json_dumps value); simpl; [| reflexivity].
      destruct (next_redis_fault _) as [[msg | msg] |]; simpl;
        [reflexivity | |]; apply lookup_insert_ne; congruence.
    + destruct (next_redis_fault _) as [[msg | msg] |]; simpl;
        [reflexivity | |]; apply lookup_delete_ne; congruence.
  - intros key ->. simpl. unfold_cache. simpl.
    destruct (redis_client w); simpl; [| reflexivity].
    destruct (next_redis_fault _) as [[msg | msg] |]; simpl;
      [reflexivity | reflexivity |].
    destruct (snd <$> store (redis w) !! key) as [[| c text] |]; simpl;
      try reflexivity.
    destruct (json_loads (String c text)); reflexivity.
Qed.

(** X5: a [set] or a [delete] that answers [False] has changed nothing in the
    store, provided the command was not applied by the server before the
    failure: the client was missing, the value could not be serialised, or the
    transport failed before the command was sent.  (When the reply is lost
    after the server applied the command the answer is [False] as well, and
    the store has changed: [lost_reply_write_is_applied].) *)
Theorem failed_write_leaves_store {J : Json} (op : cache_op) (w : World) :
  (forall msg, next_redis_fault w <> Some (ReplyLost msg)) ->
  fst (perform op w) = Ok (PBool false) ->
  store (redis (snd (perform op w))) = store (redis w).
Proof.
  intros Hsent.
  destruct op as [key | key value expire | key]; simpl; unfold_cache; simpl;
    destruct (redis_client w); simpl; try reflexivity.
  - intros _.
    destruct (next_redis_fault _) as [[msg | msg] |]; simpl;
      [reflexivity | reflexivity |].
    destruct (snd <$> store (redis w) !! key) as [[| c text] |]; simpl;
      try reflexivity.
    destruct (json_loads (String c text)); reflexivity.
  - destruct (json_dumps value); simpl; [| reflexivity].
    change (next_redis_fault (with_calls _ w)) with (next_redis_fault w).
    destruct (next_redis_fault w) as [[msg | msg] |] eqn:Hup; simpl;
      [reflexivity | destruct (Hsent msg eq_refl) | discriminate].
  - change (next_redis_fault (with_calls _ w)) with (next_redis_fault w).
    destruct (next_redis_fault w) as [[msg | msg] |] eqn:Hup; simpl;
      [reflexivity | destruct (Hsent msg eq_refl) | discriminate].
Qed.

Lemma failed_write_leaves_store_witness :
  let w := Samples.with_redis_faults [Some (NotSent "Connection refused")]
             (Samples.with_store {[ "k" := (60, "42") ]} Samples.w0) in
  store (redis (snd (perform (J := Samples.sample_json) (OpDelete "k") w))) !! "k"
    = Some (60, "42").
Proof.
  intros w.
  rewrite (failed_write_leaves_store (J := Samples.sample_json) (OpDelete "k") w).
  - vm_compute. reflexivity.
  - intros msg. vm_compute. discriminate.
  - vm_compute. reflexivity.
Defined.

(** A [delete] whose reply is lost answers [False] although the server has
    removed the key. *)
Remark lost_reply_write_is_applied :
  let w := Samples.with_redis_faults [Some (ReplyLost "Timeout reading from socket")]
             (Samples.with_store {[ "k" := (60, "42") ]} Samples.w0) in
  fst (perform (J := Samples.sample_json) (OpDelete "k") w) = Ok (PBool false) /\
  store (redis (snd (perform (J := Samples.sample_json) (OpDelete "k") w))) !! "k" = None.
Proof. split; vm_compute; reflexivity. Qed.

(** ** The Cache Client: construction and availability *)

(** X6: after construction the client is available exactly when the
    connectivity probe returned; when it did not, the handle is dropped. *)
Theorem available_iff_probe_returned (w : World) :
  fst (CacheService.is_available (snd (CacheService.__init__ w))) =
    Ok (match next_redis_fault w with None => true | Some _ => false end) /\
  (next_redis_fault w <> None -> redis_client (snd (CacheService.__init__ w)) = None).
Proof.
  unfold CacheService.__init__, CacheService._connect, RedisClient.ping,
    RedisClient.execute_command. unfold_cache. simpl.
  change (next_redis_fault (with_redis_client _ (with_redis_client None w)))
    with (next_redis_fault w).
  destruct (next_redis_fault w) as [[msg | msg] |]; simpl; split;
    try reflexivity; congruence.
Qed.

Lemma perform_unavailable {J : Json} op w :
  redis_client w = None ->
  redis_client (snd (perform op w)) = None /\
  redis (snd (perform op w)) = redis w /\
  fst (perform op w) = Ok (failure_value op).
Proof.
  intros Hc. destruct op; simpl; unfold_cache; simpl; rewrite Hc; simpl;
    repeat split; assumption || reflexivity.
Qed.

(** X7: while the client is unavailable no operation reaches Redis: after any
    sequence of [get], [set] and [delete] the store and the schedule of the
    server are as before. *)
Theorem unavailable_client_makes_no_round_trip {J : Json} (ops : list cache_op) (w : World) :
  redis_client w = None ->
  redis (snd (perform_all ops w)) = redis w.
Proof.
  revert w. induction ops as [| op ops IH]; intros w Hc; [reflexivity |].
  unfold perform_all. rewrite for_each_cons, !run_bind.
  destruct (perform_unavailable op w Hc) as (Hc' & Hr & Hv).
  destruct (perform op w) as [[v | e] w1]; simpl in *; [| discriminate].
  unfold ret at 1. cbv beta iota.
  change (redis (snd (perform_all ops w1)) = redis w).
  rewrite (IH w1 Hc'). exact Hr.
Qed.

Lemma unavailable_client_makes_no_round_trip_witness :
  redis (snd (perform_all (J := Samples.sample_json)
                [OpSet "k" (PInt 1) 300; OpGet "k"; OpDelete "k"]
                (with_redis_client None
                   (Samples.with_redis_faults [Some (NotSent "Connection refused")] Samples.w0)))) =
  {| store := ∅; redis_faults := [Some (NotSent "Connection refused")] |}.
Proof.
  apply (unavailable_client_makes_no_round_trip (J := Samples.sample_json)
           [OpSet "k" (PInt 1) 300; OpGet "k"; OpDelete "k"]
           (with_redis_client None
              (Samples.with_redis_faults [Some (NotSent "Connection refused")] Samples.w0))).
  reflexivity.
Defined.

(** ** The tables and their invariants *)

Lemma schema_invariant_same d d' :
  books d' = books d -> reviews d' = reviews d ->
  books_id_seq d' = books_id_seq d -> reviews_id_seq d' = reviews_id_seq d ->
  schema_invariant d -> schema_invariant d'.
Proof. unfold schema_invariant. intros -> -> -> ->. tauto. Qed.

Lemma schema_invariant_sequences d b r :
  books_id_seq d <= b -> reviews_id_seq d <= r ->
  schema_invariant d -> schema_invariant (with_sequences b r d).
Proof.
  unfold schema_invariant. simpl. intros Hb Hr (H1 & H2 & H3 & H4 & H5 & H6).
  repeat split; try assumption.
  - eapply Forall_impl; [exact H2 |]. simpl. intros. lia.
  - eapply Forall_impl; [exact H4 |]. simpl. intros. lia.
Qed.

Lemma stored_isbn_found value bs :
  value ∈ omap Book.isbn bs -> existsb (same_isbn value) bs = true.
Proof.
  intros Hin. apply list_elem_of_omap in Hin as (b & Hb & Hisbn).
  apply existsb_exists. exists b. split; [apply list_elem_of_In; exact Hb |].
  unfold same_isbn. rewrite Hisbn. apply String.eqb_refl.
Qed.

Lemma fresh_key {A} (key : A -> Z) (rows : list A) (seq : Z) :
  Forall (fun x => key x <= seq) rows -> seq + 1 ∉ key <$> rows.
Proof.
  intros Hall Hin. apply list_elem_of_fmap in Hin as (x & Hx & Hin).
  rewrite Forall_forall in Hall. specialize (Hall x Hin). simpl in Hall. lia.
Qed.

Lemma NoDup_snoc {A} (l : list A) (x : A) : NoDup l -> x ∉ l -> NoDup (l ++ [x]).
Proof.
  intros Hl Hx. apply NoDup_app. split; [exact Hl |]. split; [| apply NoDup_singleton].
  intros y Hy Hy'. apply list_elem_of_singleton in Hy'. subst y. contradiction.
Qed.

(** One INSERT: the sequences never go back; an accepted row keeps the
    invariant. *)
Lemma insert_row_invariant row d :
  schema_invariant d ->
  books_id_seq d <= books_id_seq (snd (insert_row row d)) /\
  reviews_id_seq d <= reviews_id_seq (snd (insert_row row d)) /\
  (forall r, fst (insert_row row d) = Ok r -> schema_invariant (snd (insert_row row d))).
Proof.
  intros (H1 & H2 & H3 & H4 & H5 & H6).
  assert (Hbook : forall b,
            Book.id b = books_id_seq d + 1 ->
            (forall value, Book.isbn b = Some value ->
                           existsb (same_isbn value) (books d) = false) ->
            schema_invariant
              (with_tables (books d ++ [b]) (reviews d)
                 (with_sequences (books_id_seq d + 1) (reviews_id_seq d) d))).
  { intros b Hid Hisbn. unfold schema_invariant. simpl.
    rewrite fmap_app, omap_app. simpl. rewrite Hid.
    split; [apply NoDup_snoc; [exact H1 | apply fresh_key; exact H2] |].
    split.
    { apply Forall_app. split; [| apply Forall_singleton; lia].
      eapply Forall_impl; [exact H2 |]. simpl. intros. lia. }
    split; [exact H3 |]. split; [exact H4 |].
    split.
    { destruct (Book.isbn b) as [value |] eqn:Hb; simpl.
      - apply NoDup_snoc; [exact H5 |]. intros Hin.
        apply stored_isbn_found in Hin. rewrite (Hisbn value eq_refl) in Hin.
        discriminate Hin.
      - rewrite app_nil_r. exact H5. }
    eapply Forall_impl; [exact H6 |]. simpl. intros r Hr.
    rewrite existsb_app, Hr. reflexivity. }
  destruct row as [data | book_id data]; simpl.
  - destruct (BookCreate.isbn data) as [value |] eqn:Hisbn.
    + destruct (existsb (same_isbn value) (books d)) eqn:Hdup; simpl.
      * split; [lia |]. split; [lia |]. intros r Hr. discriminate Hr.
      * split; [lia |]. split; [lia |]. intros _ _. apply Hbook; [reflexivity |].
        simpl. intros v Hv. injection Hv as <-. exact Hdup.
    + simpl. split; [lia |]. split; [lia |]. intros _ _. apply Hbook; [reflexivity |].
      simpl. intros v Hv. discriminate Hv.
  - destruct (existsb (has_id book_id) (books d)) eqn:Hfk; simpl.
    + split; [lia |]. split; [lia |]. intros _ _. unfold schema_invariant. simpl.
      rewrite fmap_app. simpl.
      split; [exact H1 |]. split; [exact H2 |].
      split; [apply NoDup_snoc; [exact H3 | apply fresh_key; exact H4] |].
      split.
      { apply Forall_app. split; [| apply Forall_singleton; simpl; lia].
        eapply Forall_impl; [exact H4 |]. simpl. intros. lia. }
      split; [exact H5 |].
      apply Forall_app. split; [exact H6 | apply Forall_singleton; exact Hfk].
    + split; [lia |]. split; [lia |]. intros r Hr. discriminate Hr.
Qed.

Lemma flush_invariant objs d :
  schema_invariant d ->
  books_id_seq d <= books_id_seq (snd (flush objs d)) /\
  reviews_id_seq d <= reviews_id_seq (snd (flush objs d)) /\
  (forall objs', fst (flush objs d) = Ok objs' -> schema_invariant (snd (flush objs d))).
Proof.
  revert d. induction objs as [| o objs IH]; intros d Hinv; simpl.
  - split; [lia |]. split; [lia |]. intros _ _. exact Hinv.
  - destruct o as [row | tbl pk |].
    + destruct (insert_row_invariant row d Hinv) as (Hb & Hr & Hok).
      destruct (insert_row row d) as [[[tbl pk] | e] d1]; simpl in *.
      * specialize (Hok _ eq_refl).
        destruct (IH d1 Hok) as (Hb' & Hr' & Hok').
        destruct (flush objs d1) as [[rest | e] d2]; simpl in *.
        -- split; [lia |]. split; [lia |]. intros _ _. apply (Hok' rest eq_refl).
        -- split; [lia |]. split; [lia |]. intros ? Hx. discriminate Hx.
      * split; [lia |]. split; [lia |]. intros ? Hx. discriminate Hx.
    + destruct (IH d Hinv) as (Hb' & Hr' & Hok').
      destruct (flush objs d) as [[rest | e] d2]; simpl in *.
      * split; [lia |]. split; [lia |]. intros _ _. apply (Hok' rest eq_refl).
      * split; [lia |]. split; [lia |]. intros ? Hx. discriminate Hx.
    + destruct (IH d Hinv) as (Hb' & Hr' & Hok').
      destruct (flush objs d) as [[rest | e] d2]; simpl in *.
      * split; [lia |]. split; [lia |]. intros _ _. apply (Hok' rest eq_refl).
      * split; [lia |]. split; [lia |]. intros ? Hx. discriminate Hx.
Qed.

(** ** A small logic of kept properties *)

Section Keeps.
Context (Q : option Redis -> RedisServer -> Database -> Prop).

Lemma keeps_ret {A} (a : A) : keeps Q (ret a).
Proof. intros w H. exact H. Qed.

Lemma keeps_raise {A} e : keeps Q (raise (A := A) e).
Proof. intros w H. exact H. Qed.

Lemma keeps_lift {A} (r : result A) : keeps Q (lift r).
Proof. intros w H. exact H. Qed.

Lemma keeps_log l msg : keeps Q (log l msg).
Proof. intros w H. exact H. Qed.

Lemma keeps_record e : keeps Q (record e).
Proof. intros w H. exact H. Qed.

Lemma keeps_read {A} (f : World -> A) : keeps Q (read f).
Proof. intros w H. exact H. Qed.

Lemma keeps_bind {A B} (m : M A) (f : A -> M B) :
  keeps Q m -> (forall a, keeps Q (f a)) -> keeps Q (bind m f).
Proof.
  intros Hm Hf w H. unfold bind. specialize (Hm w H).
  destruct (m w) as [[a | e] w1]; simpl in *; [apply Hf; exact Hm | exact Hm].
Qed.

Lemma keeps_try_except {A} (body : M A) handler :
  keeps Q body -> (forall e, keeps Q (handler e)) -> keeps Q (try_except body handler).
Proof.
  intros Hm Hf w H. unfold try_except. specialize (Hm w H).
  destruct (body w) as [[a | e] w1]; simpl in *; [exact Hm | apply Hf; exact Hm].
Qed.

Lemma keeps_for_each {A} (xs : list A) body :
  (forall x, keeps Q (body x)) -> keeps Q (for_each xs body).
Proof.
  intros Hbody. induction xs as [| x xs IH].
  - apply keeps_ret.
  - rewrite for_each_cons. apply keeps_bind; [apply Hbody | intros _; exact IH].
Qed.

Lemma keeps_for_each_in {A} (xs : list A) body :
  (forall x, In x xs -> keeps Q (body x)) -> keeps Q (for_each xs body).
Proof.
  induction xs as [| x xs IH]; intros Hbody.
  - apply keeps_ret.
  - rewrite for_each_cons. apply keeps_bind.
    + apply Hbody. left. reflexivity.
    + intros _. apply IH. intros y Hy. apply Hbody. right. exact Hy.
Qed.

End Keeps.

(** One step of a proof that a computation keeps a property: the rule of the
    combinator at the head, or a case analysis of the value it branches on. *)
Ltac keeps_step :=
  lazymatch goal with
  | |- keeps _ (bind _ _) => apply keeps_bind; [| intros ?]
  | |- keeps _ (try_except _ _) => apply keeps_try_except; [| intros ?]
  | |- keeps _ (for_each _ _) => apply keeps_for_each_in; intros ? ?
  | |- keeps _ (ret _) => apply keeps_ret
  | |- keeps _ (raise _) => apply keeps_raise
  | |- keeps _ (lift _) => apply keeps_lift
  | |- keeps _ (log _ _) => apply keeps_log
  | |- keeps _ (record _) => apply keeps_record
  | |- keeps _ (read _) => apply keeps_read
  | |- keeps _ (match ?x with _ => _ end) => destruct x
  end.

(** The Cache Client does not touch the database. *)
Lemma cache_get_keeps_database {J : Json} P key : keeps (on_database P) (CacheService.get key).
Proof.
  intros w H. destruct (get_returns key w) as (v & w' & -> & _ & Hd & _).
  unfold on_database in *. simpl. rewrite Hd. exact H.
Qed.

Lemma cache_set_keeps_database {J : Json} P key value expire :
  keeps (on_database P) (CacheService.set key value expire).
Proof.
  intros w H. destruct (set_returns key value expire w) as (v & w' & -> & _ & Hd & _).
  unfold on_database in *. simpl. rewrite Hd. exact H.
Qed.

Lemma cache_delete_keeps_database P key : keeps (on_database P) (CacheService.delete key).
Proof.
  intros w H. destruct (delete_returns key w) as (v & w' & -> & _ & Hd & _).
  unfold on_database in *. simpl. rewrite Hd. exact H.
Qed.

(** The primitives of the session. *)
Section SessionKeeps.
Context (P : Database -> Prop).
Context (P_faults : forall d f, P d -> P (with_db_faults f d)).

Lemma round_trip_keeps : keeps (on_database P) Session.round_trip.
Proof.
  intros w H. unfold Session.round_trip, on_database in *.
  destruct (next_db_fault w); simpl; apply P_faults; exact H.
Qed.

Lemma query_books_all_keeps skip limit :
  keeps (on_database P) (Session.query_books_all skip limit).
Proof. unfold Session.query_books_all. repeat keeps_step. apply round_trip_keeps. Qed.

Lemma query_book_first_keeps book_id :
  keeps (on_database P) (Session.query_book_first book_id).
Proof. unfold Session.query_book_first. repeat keeps_step. apply round_trip_keeps. Qed.

Lemma query_reviews_all_keeps book_id skip limit :
  keeps (on_database P) (Session.query_reviews_all book_id skip limit).
Proof. unfold Session.query_reviews_all. repeat keeps_step. apply round_trip_keeps. Qed.

Lemma refresh_book_keeps obj : keeps (on_database P) (Session.refresh_book obj).
Proof.
  unfold Session.refresh_book, Session.invalid_request.
  repeat (keeps_step || apply query_book_first_keeps).
Qed.

Lemma refresh_review_keeps obj : keeps (on_database P) (Session.refresh_review obj).
Proof.
  unfold Session.refresh_review, Session.invalid_request.
  repeat (keeps_step || apply round_trip_keeps).
Qed.

Lemma gateway_get_books_keeps skip limit :
  keeps (on_database P) (BookService.get_books skip limit).
Proof.
  unfold BookService.get_books. repeat (keeps_step || apply query_books_all_keeps).
Qed.

Lemma gateway_get_book_keeps book_id : keeps (on_database P) (BookService.get_book book_id).
Proof.
  unfold BookService.get_book. repeat (keeps_step || apply query_book_first_keeps).
Qed.

Lemma gateway_get_book_reviews_keeps book_id skip limit :
  keeps (on_database P) (BookService.get_book_reviews book_id skip limit).
Proof.
  unfold BookService.get_book_reviews.
  repeat (keeps_step || apply query_reviews_all_keeps).
Qed.

(** Listing books never writes. *)
Lemma get_books_keeps {J : Json} skip limit :
  keeps (on_database P) (Api.get_books skip limit).
Proof.
  unfold Api.get_books.
  repeat (keeps_step || apply cache_get_keeps_database || apply cache_set_keeps_database
          || apply gateway_get_books_keeps).
Qed.

End SessionKeeps.

Lemma api_get_book_reviews_keeps P book_id skip limit :
  (forall d f, P d -> P (with_db_faults f d)) ->
  keeps (on_database P) (Api.get_book_reviews book_id skip limit).
Proof.
  intros HP. unfold Api.get_book_reviews.
  repeat (keeps_step || apply gateway_get_book_keeps
          || apply gateway_get_book_reviews_keeps || exact HP).
Qed.

(** X8: the two listing handlers never write: after [get_books] and after
    [get_book_reviews], whatever they answer, the tables, the sequences and the
    session are as before; only outcomes of the schedule were consumed. *)
Theorem listing_never_writes {J : Json} (book_id skip limit : Z) (w : World) :
  stored (database (snd (Api.get_books skip limit w))) = stored (database w) /\
  stored (database (snd (Api.get_book_reviews book_id skip limit w))) = stored (database w).
Proof.
  split.
  - apply (get_books_keeps (fun d => stored d = stored (database w))); [| reflexivity].
    intros d f Hd. exact Hd.
  - apply (api_get_book_reviews_keeps (fun d => stored d = stored (database w)));
      [| reflexivity].
    intros d f Hd. exact Hd.
Qed.

Lemma schema_invariant_faults d f : schema_invariant d -> schema_invariant (with_db_faults f d).
Proof. apply schema_invariant_same; reflexivity. Qed.

Lemma add_keeps_schema row : keeps (on_database schema_invariant) (Session.add row).
Proof.
  intros w H. unfold on_database in *. simpl.
  revert H. apply schema_invariant_same; reflexivity.
Qed.

Lemma rollback_keeps_schema : keeps (on_database schema_invariant) Session.rollback.
Proof.
  intros w H. unfold on_database in *. simpl.
  revert H. apply schema_invariant_same; reflexivity.
Qed.

Lemma commit_keeps_schema : keeps (on_database schema_invariant) Session.commit.
Proof.
  unfold Session.commit. apply keeps_try_except;
    [| intros e; apply keeps_bind;
       [apply rollback_keeps_schema | intros _; apply keeps_raise]].
  apply keeps_bind.
  { apply round_trip_keeps. apply schema_invariant_faults. }
  intros _ w H. unfold on_database in *.
  destruct (flush_invariant (session (database w)) (database w) H) as (Hb & Hr & Hok).
  destruct (flush (session (database w)) (database w)) as [[objs | e] d']; simpl in *.
  - generalize (Hok objs eq_refl). apply schema_invariant_same; reflexivity.
  - apply schema_invariant_sequences; assumption.
Qed.

Lemma gateway_create_book_keeps_schema book :
  keeps (on_database schema_invariant) (BookService.create_book book).
Proof.
  unfold BookService.create_book.
  repeat (keeps_step || apply add_keeps_schema || apply commit_keeps_schema
          || apply refresh_book_keeps || apply schema_invariant_faults).
Qed.

Lemma gateway_create_review_keeps_schema book_id review :
  keeps (on_database schema_invariant) (BookService.create_review book_id review).
Proof.
  unfold BookService.create_review.
  repeat (keeps_step || apply add_keeps_schema || apply commit_keeps_schema
          || apply refresh_review_keeps || apply schema_invariant_faults).
Qed.

(** X9: [create_book] keeps the invariants of the schema in every run, whether
    it answers 201, 400 or 500: primary keys stay distinct and below their
    sequences, no isbn is stored twice, every review refers to a stored
    book. *)
Theorem create_book_keeps_schema (book : BookCreate.t) (w : World) :
  schema_invariant (database w) ->
  schema_invariant (database (snd (Api.create_book book w))).
Proof.
  assert (Hkeeps : keeps (on_database schema_invariant) (Api.create_book book)).
  { unfold Api.create_book.
    repeat (keeps_step || apply gateway_create_book_keeps_schema
            || apply cache_delete_keeps_database || apply rollback_keeps_schema). }
  exact (Hkeeps w).
Qed.

(** X10: [create_book_review] keeps the invariants of the schema in every
    run: in particular no review is ever stored for a book that is not. *)
Theorem create_book_review_keeps_schema (book_id : Z) (review : ReviewCreate.t) (w : World) :
  schema_invariant (database w) ->
  schema_invariant (database (snd (Api.create_book_review book_id review w))).
Proof.
  assert (Hkeeps : keeps (on_database schema_invariant)
                      (Api.create_book_review book_id review)).
  { unfold Api.create_book_review.
    repeat (keeps_step || apply gateway_get_book_keeps
            || apply gateway_create_review_keeps_schema || apply schema_invariant_faults). }
  exact (Hkeeps w).
Qed.

Lemma sample_schema : schema_invariant Samples.db0.
Proof.
  unfold schema_invariant. simpl.
  split; [apply (bool_decide_unpack _); vm_compute; exact I |].
  split; [repeat constructor; simpl; lia |].
  split; [apply NoDup_nil_2 |].
  split; [apply Forall_nil_2 |].
  split; [apply (bool_decide_unpack _); vm_compute; exact I |].
  apply Forall_nil_2.
Qed.

Lemma create_book_keeps_schema_witness :
  schema_invariant (database (snd (Api.create_book Samples.ulysses Samples.w0))) /\
  schema_invariant (database (snd (Api.create_book Samples.dune_again Samples.w0))).
Proof.
  split.
  - apply (create_book_keeps_schema Samples.ulysses Samples.w0). exact sample_schema.
  - apply (create_book_keeps_schema Samples.dune_again Samples.w0). exact sample_schema.
Defined.

Lemma create_book_review_keeps_schema_witness :
  schema_invariant (database (snd (Api.create_book_review 2 Samples.praise Samples.w0))).
Proof.
  apply (create_book_review_keeps_schema 2 Samples.praise Samples.w0). exact sample_schema.
Defined.

(** ** Creating and reading back *)

#[local] Arguments book_row : simpl never.
#[local] Arguments review_row : simpl never.

Lemma find_new_book bs seq b :
  Forall (fun x => Book.id x <= seq) bs -> Book.id b = seq + 1 ->
  List.find (has_id (seq + 1)) (bs ++ [b]) = Some b.
Proof.
  intros Hall Hid. induction Hall as [| x bs Hx Hall IH]; simpl.
  - unfold has_id. rewrite Hid, Z.eqb_refl. reflexivity.
  - unfold has_id at 1. destruct (Z.eqb_spec (Book.id x) (seq + 1)); [lia | exact IH].
Qed.

Lemma find_new_review rs seq r :
  Forall (fun x => Review.id x <= seq) rs -> Review.id r = seq + 1 ->
  List.find (fun x => Review.id x =? seq + 1) (rs ++ [r]) = Some r.
Proof.
  intros Hall Hid. induction Hall as [| x rs Hx Hall IH]; simpl.
  - rewrite Hid, Z.eqb_refl. reflexivity.
  - destruct (Z.eqb_spec (Review.id x) (seq + 1)); [lia | exact IH].
Qed.

Lemma insert_free_book data d :
  isbn_free data d ->
  insert_row (NewBook data) d =
  (Ok (Books, books_id_seq d + 1),
   with_tables (books d ++ [book_row (books_id_seq d + 1) (now d) data]) (reviews d)
     (with_sequences (books_id_seq d + 1) (reviews_id_seq d) d)).
Proof.
  unfold isbn_free, book_row. simpl.
  destruct (BookCreate.isbn data) as [value |]; [intros -> |]; reflexivity.
Qed.

Lemma flush_single row d :
  flush [Pending row] d =
  match insert_row row d with
  | (Ok (tbl, pk), d1) => (Ok [Persistent tbl pk], d1)
  | (Raise e, d1) => (Raise e, d1)
  end.
Proof. simpl. destruct (insert_row row d) as [[[tbl pk] | e] d1]; reflexivity. Qed.

(** The gateway on a request that nothing stands against. *)
Lemma gateway_create_book_success book w :
  session (database w) = [] ->
  db_up 2 w ->
  isbn_free book (database w) ->
  Forall (fun b => Book.id b <= books_id_seq (database w)) (books (database w)) ->
  let row := book_row (books_id_seq (database w) + 1) (now (database w)) book in
  fst (BookService.create_book book w) = Ok row /\
  books (database (snd (BookService.create_book book w))) = books (database w) ++ [row] /\
  reviews (database (snd (BookService.create_book book w))) = reviews (database w) /\
  db_faults (database (snd (BookService.create_book book w))) =
    tail (tail (db_faults (database w))).
Proof.
  intros Hfresh (Hup1 & Hup2 & _) Hfree Hids row.
  unfold_gateway. simpl.
  change (next_db_fault (with_database _ (with_calls _ w))) with (next_db_fault w).
  rewrite Hup1, Hfresh.
  change ([] ++ [Pending (NewBook book)]) with [Pending (NewBook book)].
  cbn [session database consume_db_outcome with_database with_session with_db_faults].
  rewrite flush_single, insert_free_book by exact Hfree. simpl.
  unfold next_db_fault in Hup2 |- *. simpl in Hup2 |- *.
  destruct (tail (db_faults (database w))) as [| [f |] rest]; try discriminate Hup2; simpl.
  all: subst row;
    rewrite (find_new_book _ _
               (book_row (books_id_seq (database w) + 1) (now (database w)) book)
               Hids eq_refl);
    simpl; repeat split; reflexivity.
Qed.

(** X11: a creation that nothing stands against (fresh session, database
    reachable for the commit and the refresh, isbn not stored yet) answers
    201 with the submitted fields, the next value of the sequence as id and
    the server's time as [created_at]; the row is appended to [books] and is
    the one a lookup by that id finds. *)
Theorem created_book_is_stored (book : BookCreate.t) (w : World) :
  session (database w) = [] ->
  db_up 2 w ->
  isbn_free book (database w) ->
  Forall (fun b => Book.id b <= books_id_seq (database w)) (books (database w)) ->
  let row := book_row (books_id_seq (database w) + 1) (now (database w)) book in
  let w' := snd (Api.create_book book w) in
  fst (Api.create_book book w) = Ok row /\
  status_code 201 (fst (Api.create_book book w)) = 201 /\
  books (database w') = books (database w) ++ [row] /\
  List.find (has_id (Book.id row)) (books (database w')) = Some row.
Proof.
  intros Hfresh Hup Hfree Hids row w'.
  destruct (gateway_create_book_success book w Hfresh Hup Hfree Hids) as (Hr & Hb & _ & _).
  fold row in Hr, Hb. subst w'.
  destruct (create_book_run book w) as (w' & -> & _ & Hdb).
  rewrite Hr in *. simpl. rewrite Hdb, Hb.
  repeat split; try reflexivity.
  apply (find_new_book _ _ row Hids eq_refl).
Qed.

Lemma created_book_is_stored_witness :
  fst (Api.create_book Samples.ulysses Samples.w0) =
    Ok (book_row 3 "2024-02-01T00:00:00+00:00" Samples.ulysses) /\
  status_code 201 (fst (Api.create_book Samples.ulysses Samples.w0)) = 201 /\
  books (database (snd (Api.create_book Samples.ulysses Samples.w0))) =
    [Samples.dune; Samples.emma; book_row 3 "2024-02-01T00:00:00+00:00" Samples.ulysses] /\
  List.find (has_id 3) (books (database (snd (Api.create_book Samples.ulysses Samples.w0)))) =
    Some (book_row 3 "2024-02-01T00:00:00+00:00" Samples.ulysses).
Proof.
  apply (created_book_is_stored Samples.ulysses Samples.w0).
  - reflexivity.
  - simpl. repeat split; reflexivity.
  - reflexivity.
  - repeat constructor; simpl; lia.
Defined.

Lemma find_known_book book_id bs :
  existsb (has_id book_id) bs = true -> exists b, List.find (has_id book_id) bs = Some b.
Proof.
  induction bs as [| x bs IH]; simpl; [discriminate |].
  destruct (has_id book_id x); [eauto | exact IH].
Qed.

Lemma insert_known_review book_id data d :
  existsb (has_id book_id) (books d) = true ->
  insert_row (NewReview book_id data) d =
  (Ok (Reviews, reviews_id_seq d + 1),
   with_tables (books d)
     (reviews d ++ [review_row (reviews_id_seq d + 1) book_id (now d) data])
     (with_sequences (books_id_seq d) (reviews_id_seq d + 1) d)).
Proof. simpl. intros ->. reflexivity. Qed.

Lemma db_up_database n w1 w2 :
  database w1 = database w2 -> db_up n w1 -> db_up n w2.
Proof.
  revert w1 w2. induction n as [| n IH]; intros w1 w2 Hd; simpl; [tauto |].
  intros [Hup Hrest]. split.
  - rewrite <- Hup. apply next_db_fault_database. symmetry. exact Hd.
  - apply (IH (consume_db_outcome w1)); [| exact Hrest].
    unfold consume_db_outcome. simpl. rewrite Hd. reflexivity.
Qed.

(** The gateway on a review that nothing stands against. *)
Lemma gateway_create_review_success book_id review w :
  existsb (has_id book_id) (books (database w)) = true ->
  session (database w) = [] ->
  db_up 2 w ->
  Forall (fun r => Review.id r <= reviews_id_seq (database w)) (reviews (database w)) ->
  let row := review_row (reviews_id_seq (database w) + 1) book_id (now (database w)) review in
  fst (BookService.create_review book_id review w) = Ok row /\
  reviews (database (snd (BookService.create_review book_id review w))) =
    reviews (database w) ++ [row] /\
  books (database (snd (BookService.create_review book_id review w))) = books (database w).
Proof.
  intros Hbook Hfresh (Hup1 & Hup2 & _) Hids row.
  unfold_gateway. simpl.
  change (next_db_fault (with_database _ (with_calls _ w))) with (next_db_fault w).
  rewrite Hup1, Hfresh.
  change ([] ++ [Pending (NewReview book_id review)])
    with [Pending (NewReview book_id review)].
  cbn [session database consume_db_outcome with_database with_session with_db_faults].
  rewrite flush_single, insert_known_review by exact Hbook. simpl.
  unfold next_db_fault in Hup2 |- *. simpl in Hup2 |- *.
  destruct (tail (db_faults (database w))) as [| [f |] rest]; try discriminate Hup2; simpl.
  all: subst row;
    rewrite (find_new_review _ _
               (review_row (reviews_id_seq (database w) + 1) book_id
                  (now (database w)) review) Hids eq_refl);
    simpl; repeat split; reflexivity.
Qed.

(** X12: a review for a stored book, on a fresh session with the database
    reachable for the lookup, the commit and the refresh, is answered 201
    with the submitted fields, the book's id and the next value of the
    sequence; the row is appended to [reviews], [books] is untouched, and the
    row is among the reviews of that book. *)
Theorem created_review_is_stored (book_id : Z) (review : ReviewCreate.t) (w : World) :
  existsb (has_id book_id) (books (database w)) = true ->
  session (database w) = [] ->
  db_up 3 w ->
  Forall (fun r => Review.id r <= reviews_id_seq (database w)) (reviews (database w)) ->
  let row := review_row (reviews_id_seq (database w) + 1) book_id (now (database w)) review in
  let w' := snd (Api.create_book_review book_id review w) in
  fst (Api.create_book_review book_id review w) = Ok row /\
  status_code 201 (fst (Api.create_book_review book_id review w)) = 201 /\
  reviews (database w') = reviews (database w) ++ [row] /\
  books (database w') = books (database w) /\
  In row (List.filter (fun r => Review.book_id r =? book_id) (reviews (database w'))).
Proof.
  intros Hbook Hfresh (Hup1 & Hup) Hids row w'.
  assert (Hrun : fst (Api.create_book_review book_id review w) = Ok row /\
                 reviews (database w') = reviews (database w) ++ [row] /\
                 books (database w') = books (database w)).
  { subst w' row. destruct (find_known_book _ _ Hbook) as (b & Hfind).
    unfold Api.create_book_review.
    rewrite run_bind, gateway_get_book_run, Hup1, Hfind. cbv beta iota.
    rewrite run_try_except.
    set (w1 := consume_db_outcome (with_calls (calls w ++ [GatewayGetBook book_id]) w)).
    destruct (gateway_create_review_success book_id review w1) as (Hr & Hrs & Hbs).
    - exact Hbook.
    - exact Hfresh.
    - apply (db_up_database 2 (consume_db_outcome w)); [reflexivity | exact Hup].
    - exact Hids.
    - destruct (BookService.create_review book_id review w1) as [[r | e] w2];
        simpl in Hr; [| discriminate Hr].
      injection Hr as ->. simpl in *. repeat split; assumption. }
  destruct Hrun as (Hr & Hrs & Hbs). rewrite Hr, Hrs, Hbs.
  repeat split; try reflexivity.
  apply filter_In. split; [apply in_or_app; right; left; reflexivity |].
  subst row. simpl. apply Z.eqb_refl.
Qed.

Lemma created_review_is_stored_witness :
  let row := review_row 1 2 "2024-02-01T00:00:00+00:00" Samples.praise in
  let w' := snd (Api.create_book_review 2 Samples.praise Samples.w0) in
  fst (Api.create_book_review 2 Samples.praise Samples.w0) = Ok row /\
  status_code 201 (fst (Api.create_book_review 2 Samples.praise Samples.w0)) = 201 /\
  reviews (database w') = [row] /\
  books (database w') = [Samples.dune; Samples.emma] /\
  In row (List.filter (fun r => Review.book_id r =? 2) (reviews (database w'))).
Proof.
  apply (created_review_is_stored 2 Samples.praise Samples.w0).
  - reflexivity.
  - reflexivity.
  - simpl. repeat split; reflexivity.
  - constructor.
Defined.

(** X13: whatever [get_book_reviews] answers with is made of stored reviews
    of the requested book, no more than [limit] of them, and the book is
    stored. *)
Theorem listed_reviews_belong_to_book (book_id skip limit : Z) (w : World)
    (listed : list Review.t) :
  fst (Api.get_book_reviews book_id skip limit w) = Ok listed ->
  existsb (has_id book_id) (books (database w)) = true /\
  (length listed <= Z.to_nat limit)%nat /\
  Forall (fun r => Review.book_id r = book_id /\ In r (reviews (database w))) listed.
Proof.
  unfold Api.get_book_reviews.
  rewrite run_bind, gateway_get_book_run.
  destruct (next_db_fault w); [discriminate |]. cbv beta iota.
  destruct (find (has_id book_id) (books (database w))) as [b |] eqn:Hfind;
    [| discriminate].
  rewrite run_try_except, run_bind.
  unfold BookService.get_book_reviews, Session.query_reviews_all, Session.round_trip.
  unfold bind, record, read, ret. simpl.
  match goal with |- context [next_db_fault ?x] => destruct (next_db_fault x) end;
    simpl; [discriminate |].
  intros Hl. injection Hl as <-.
  split.
  { apply existsb_exists. exists b. apply find_some in Hfind. exact Hfind. }
  split.
  { rewrite length_take. lia. }
  apply Forall_forall. intros r Hr.
  assert (Hin : r ∈ List.filter (fun r => Review.book_id r =? book_id)
                      (reviews (database w))).
  { eapply subseteq_drop. eapply subseteq_take. exact Hr. }
  apply list_elem_of_In in Hin.
  apply filter_In in Hin as [Hin Hb]. split; [lia | exact Hin].
Qed.

(** ** What the handlers raise *)

(** The run of [get_books] when the cache answers a value, in full. *)
Lemma get_books_on_hit {J : Json} skip limit w v :
  fst (CacheService.get (cache_key skip limit) w) = Ok v ->
  v <> PNone ->
  exists w',
    Api.get_books skip limit w =
      (match len v with
       | Ok _ => Ok (FromCache v)
       | Raise _ =>
           match next_db_fault w with
           | None => Ok (FromGateway (window skip limit w))
           | Some f =>
               Raise (HTTPException 500
                        ("Internal server error: " +:+ str (exn_of_fault f)))
           end
       end, w') /\
    calls w' =
      calls w ++ CacheGet (cache_key skip limit) ::
      match len v with
      | Ok _ => []
      | Raise _ => [GatewayGetBooks skip limit]
      end.
Proof.
  intros Hhit Hsome.
  destruct (get_returns (cache_key skip limit) w) as (v' & w1 & Hget & _ & Hd1 & Hcalls1).
  rewrite Hget in Hhit. simpl in Hhit. injection Hhit as ->.
  unfold Api.get_books. rewrite run_try_except, run_bind, Hget.
  destruct v as [| b | n | s | xs | kvs]; try contradiction; cbv beta iota;
    rewrite run_bind; unfold lift at 1; simpl len; cbv beta iota.
  3, 4, 5: rewrite run_bind; unfold log at 1, ret at 1; cbv beta iota;
    eexists; (split; [reflexivity |]); simpl; exact Hcalls1.
  all: rewrite run_bind; unfold log at 1; cbv beta iota;
    rewrite run_try_except, run_bind; unfold log at 1; cbv beta iota;
    rewrite run_bind, gateway_get_books_run;
    rewrite (next_db_fault_database w) by (simpl; exact Hd1);
    destruct (next_db_fault w); cbv beta iota.
  all: try (rewrite run_bind; unfold log at 1, raise at 1; cbv beta iota;
            eexists; (split; [reflexivity |]); simpl;
            rewrite Hcalls1, <- app_assoc; reflexivity).
  all: unfold ret at 1;
    rewrite (window_database skip limit w) by (simpl; exact Hd1);
    eexists; (split; [reflexivity |]); simpl;
    rewrite Hcalls1, <- app_assoc; reflexivity.
Qed.

(** X14: in every run [get_books] either returns the value the cache
    answered, or returns the rows of the requested window of [books], or
    raises [HTTPException] with status 500: no other exception escapes it. *)
Theorem get_books_outcomes {J : Json} (skip limit : Z) (w : World) :
  (exists v, fst (Api.get_books skip limit w) = Ok (FromCache v) /\
             fst (CacheService.get (cache_key skip limit) w) = Ok v /\ v <> PNone) \/
  fst (Api.get_books skip limit w) = Ok (FromGateway (window skip limit w)) \/
  (exists detail, fst (Api.get_books skip limit w) = Raise (HTTPException 500 detail)).
Proof.
  destruct (get_returns (cache_key skip limit) w) as (v & w1 & Hget & _).
  assert (Hv : fst (CacheService.get (cache_key skip limit) w) = Ok v)
    by (rewrite Hget; reflexivity).
  assert (Hcases : v = PNone \/ v <> PNone)
    by (destruct v; [left; reflexivity | right; discriminate ..]).
  destruct Hcases as [-> | Hsome].
  - destruct (get_books_on_miss skip limit w Hv) as (w' & -> & _). simpl.
    unfold miss_response.
    destruct (db_faults (database w)) as [| [f1 |] [| [f2 |] rest]]; eauto.
  - destruct (get_books_on_hit skip limit w v Hv Hsome) as (w' & -> & _). simpl.
    destruct (len v); [left; eauto |].
    destruct (next_db_fault w); eauto.
Qed.

Lemma expunged_not_pending objs :
  existsb is_pending (map expunge_pending objs) = false.
Proof.
  induction objs as [| [row | tbl pk |] objs IH]; simpl; try exact IH; reflexivity.
Qed.

(** X15: in every run [create_book] either returns the book the gateway
    returned, or raises [HTTPException]: with status 400 only when the gateway
    raised an [IntegrityError], with status 500 and the fixed detail
    otherwise; and whenever it raises, no object is left pending in the
    session. *)
Theorem create_book_outcomes (book : BookCreate.t) (w : World) :
  match fst (Api.create_book book w) with
  | Ok new_book => fst (BookService.create_book book w) = Ok new_book
  | Raise e =>
      existsb is_pending (session (database (snd (Api.create_book book w)))) = false /\
      ((exists detail msg,
          e = HTTPException 400 detail /\
          fst (BookService.create_book book w) = Raise (IntegrityError msg)) \/
       e = HTTPException 500 "Failed to create book")
  end.
Proof.
  destruct (create_book_run book w) as (w' & -> & _ & Hdb).
  destruct (fst (BookService.create_book book w)) as [new_book | e]; simpl in *;
    [reflexivity |].
  rewrite Hdb. simpl. split; [apply expunged_not_pending |].
  destruct e as [msg | msg | msg | code detail]; simpl; try (right; reflexivity).
  left. repeat case_match; eauto.
Qed.

Lemma expunge_pending_idempotent objs :
  map expunge_pending (map expunge_pending objs) = map expunge_pending objs.
Proof.
  induction objs as [| [row | tbl pk |] objs IH]; simpl; f_equal; exact IH.
Qed.

(** The gateway when the commit itself raises: nothing is stored, and the
    failed commit has expunged the new object. *)
Lemma gateway_create_book_fault_run book f w :
  next_db_fault w = Some f ->
  fst (BookService.create_book book w) = Raise (exn_of_fault f) /\
  stored (database (snd (BookService.create_book book w))) =
    stored (with_session (map expunge_pending (session (database w)) ++ [Expunged])
              (database w)).
Proof.
  intros Hf. unfold_gateway. simpl.
  change (next_db_fault (with_database _ (with_calls _ w))) with (next_db_fault w).
  rewrite Hf. simpl. rewrite map_app. split; reflexivity.
Qed.

Lemma gateway_create_review_fault_run book_id review f w :
  next_db_fault w = Some f ->
  fst (BookService.create_review book_id review w) = Raise (exn_of_fault f) /\
  stored (database (snd (BookService.create_review book_id review w))) =
    stored (with_session (map expunge_pending (session (database w)) ++ [Expunged])
              (database w)).
Proof.
  intros Hf. unfold_gateway. simpl.
  change (next_db_fault (with_database _ (with_calls _ w))) with (next_db_fault w).
  rewrite Hf. simpl. rewrite map_app. split; reflexivity.
Qed.

(** X16: when the commit of [create_book] cannot reach the database, the
    request is answered 500 with the fixed detail, [books] and [reviews] are
    as before, and the new object has left the session. *)
Theorem create_book_commit_failure (book : BookCreate.t) (msg : string) (w : World) :
  next_db_fault w = Some (OperationalFault msg) ->
  let w' := snd (Api.create_book book w) in
  fst (Api.create_book book w) = Raise (HTTPException 500 "Failed to create book") /\
  books (database w') = books (database w) /\
  reviews (database w') = reviews (database w) /\
  session (database w') = map expunge_pending (session (database w)) ++ [Expunged] /\
  cache_deletes w' = cache_deletes w.
Proof.
  intros Hf w'. subst w'.
  destruct (gateway_create_book_fault_run book _ w Hf) as (Hr & Hd).
  pose proof (f_equal books Hd) as Hb.
  pose proof (f_equal reviews Hd) as Hrs.
  pose proof (f_equal session Hd) as Hss.
  simpl in Hb, Hrs, Hss.
  destruct (create_book_run book w) as (w' & -> & Hcalls & Hdb).
  rewrite Hr in *. simpl in *. rewrite Hdb. simpl.
  rewrite Hb, Hrs, Hss, map_app, expunge_pending_idempotent.
  repeat split; try reflexivity.
  unfold cache_deletes at 1. rewrite Hcalls, cache_deletes_app. apply app_nil_r.
Qed.

Lemma create_book_commit_failure_witness :
  let w := Samples.with_faults [Some (OperationalFault "connection refused")] Samples.w0 in
  let w' := snd (Api.create_book Samples.ulysses w) in
  fst (Api.create_book Samples.ulysses w) =
    Raise (HTTPException 500 "Failed to create book") /\
  books (database w') = [Samples.dune; Samples.emma] /\
  reviews (database w') = [] /\
  session (database w') = [Expunged] /\
  cache_deletes w' = [].
Proof.
  apply (create_book_commit_failure Samples.ulysses "connection refused"
           (Samples.with_faults [Some (OperationalFault "connection refused")] Samples.w0)).
  reflexivity.
Defined.

(** X17: when the commit of [create_book] succeeds and the refresh that
    follows raises, the request is answered 500 although the row is stored,
    and no cache key is invalidated. *)
Theorem create_book_refresh_failure (book : BookCreate.t) (f : db_fault) (w : World) :
  session (database w) = [] ->
  isbn_free book (database w) ->
  next_db_fault w = None ->
  next_db_fault (consume_db_outcome w) = Some f ->
  let w' := snd (Api.create_book book w) in
  status_code 201 (fst (Api.create_book book w)) <> 201 /\
  (forall msg, f = OperationalFault msg ->
     fst (Api.create_book book w) = Raise (HTTPException 500 "Failed to create book")) /\
  books (database w') =
    books (database w) ++
    [book_row (books_id_seq (database w) + 1) (now (database w)) book] /\
  cache_deletes w' = cache_deletes w.
Proof.
  intros Hfresh Hfree Hup1 Hup2 w'. subst w'.
  assert (Hgw : fst (BookService.create_book book w) = Raise (exn_of_fault f) /\
                books (database (snd (BookService.create_book book w))) =
                  books (database w) ++
                  [book_row (books_id_seq (database w) + 1) (now (database w)) book]).
  { unfold_gateway. simpl.
    change (next_db_fault (with_database _ (with_calls _ w))) with (next_db_fault w).
    rewrite Hup1, Hfresh.
    change ([] ++ [Pending (NewBook book)]) with [Pending (NewBook book)].
    cbn [session database consume_db_outcome with_database with_session with_db_faults].
    rewrite flush_single, insert_free_book by exact Hfree. simpl.
    unfold next_db_fault in Hup2 |- *. simpl in Hup2 |- *.
    destruct (tail (db_faults (database w))) as [| [g |] rest]; try discriminate Hup2.
    assert (g = f) as -> by congruence. simpl. split; reflexivity. }
  destruct Hgw as (Hr & Hb).
  destruct (create_book_run book w) as (w' & -> & Hcalls & Hdb).
  rewrite Hr in *. simpl in *. rewrite Hdb. simpl.
  split.
  { destruct f as [msg | msg]; simpl; [lia |].
    destruct (contains "duplicate key value violates unique constraint" msg);
      [destruct (contains "ix_books_isbn" msg) |]; simpl; lia. }
  split.
  { intros msg ->. reflexivity. }
  split; [exact Hb |].
  unfold cache_deletes at 1. rewrite Hcalls, cache_deletes_app. apply app_nil_r.
Qed.

Lemma create_book_refresh_failure_witness :
  let w := Samples.with_faults [None; Some (OperationalFault "connection lost")] Samples.w0 in
  let w' := snd (Api.create_book Samples.ulysses w) in
  status_code 201 (fst (Api.create_book Samples.ulysses w)) <> 201 /\
  (forall msg, OperationalFault "connection lost" = OperationalFault msg ->
     fst (Api.create_book Samples.ulysses w) =
       Raise (HTTPException 500 "Failed to create book")) /\
  books (database w') =
    [Samples.dune; Samples.emma; book_row 3 "2024-02-01T00:00:00+00:00" Samples.ulysses] /\
  cache_deletes w' = [].
Proof.
  apply (create_book_refresh_failure Samples.ulysses (OperationalFault "connection lost")
           (Samples.with_faults [None; Some (OperationalFault "connection lost")] Samples.w0)).
  - reflexivity.
  - reflexivity.
  - reflexivity.
  - reflexivity.
Defined.

(** X18: in the two review handlers the lookup of the book is outside the
    [try]: when it raises, the exception escapes as it is, nothing is written,
    and the client is answered by the global handler with status 500 and the
    fixed detail, whatever the exception says. *)
Theorem lookup_failure_escapes_unwrapped (book_id : Z) (review : ReviewCreate.t)
    (skip limit : Z) (f : db_fault) (w : World) :
  next_db_fault w = Some f ->
  let create := Api.create_book_review book_id review w in
  let list := Api.get_book_reviews book_id skip limit w in
  fst create = Raise (exn_of_fault f) /\
  fst list = Raise (exn_of_fault f) /\
  stored (database (snd create)) = stored (database w) /\
  stored (database (snd list)) = stored (database w) /\
  fst (error_response (exn_of_fault f) (snd create)) =
    Ok (500, PDict [("detail", PStr "Internal server error")]).
Proof.
  intros Hf create list. subst create list.
  unfold Api.create_book_review, Api.get_book_reviews.
  rewrite !run_bind, gateway_get_book_run, Hf. simpl.
  destruct f; repeat split; reflexivity.
Qed.

Lemma lookup_failure_escapes_unwrapped_witness :
  let w := Samples.with_faults [Some (OperationalFault "could not connect to server")]
             Samples.w0 in
  fst (Api.create_book_review 2 Samples.praise w) =
    Raise (Exception "could not connect to server") /\
  fst (Api.get_book_reviews 2 0 100 w) = Raise (Exception "could not connect to server") /\
  stored (database (snd (Api.create_book_review 2 Samples.praise w))) = stored (database w) /\
  stored (database (snd (Api.get_book_reviews 2 0 100 w))) = stored (database w) /\
  fst (error_response (Exception "could not connect to server")
         (snd (Api.create_book_review 2 Samples.praise w))) =
    Ok (500, PDict [("detail", PStr "Internal server error")]).
Proof.
  apply (lookup_failure_escapes_unwrapped 2 Samples.praise 0 100
           (OperationalFault "could not connect to server")
           (Samples.with_faults [Some (OperationalFault "could not connect to server")]
              Samples.w0)).
  reflexivity.
Defined.

(** X19: once the book is found, a failure of the gateway inside the [try] of
    a review handler is wrapped: the handler raises [HTTPException] 500 whose
    detail carries the text of the exception, and the client sees that text.
    [create_book_review] has no rollback of its own; the commit that failed
    has rolled the session back: [reviews] is as before and the new object
    has left the session, it is not pending. *)
Theorem review_failure_is_wrapped (book_id : Z) (review : ReviewCreate.t)
    (skip limit : Z) (f : db_fault) (w : World) :
  existsb (has_id book_id) (books (database w)) = true ->
  next_db_fault w = None ->
  next_db_fault (consume_db_outcome w) = Some f ->
  let detail := "Internal server error: " +:+ str (exn_of_fault f) in
  let create := Api.create_book_review book_id review w in
  fst create = Raise (HTTPException 500 detail) /\
  fst (Api.get_book_reviews book_id skip limit w) = Raise (HTTPException 500 detail) /\
  reviews (database (snd create)) = reviews (database w) /\
  session (database (snd create)) =
    map expunge_pending (session (database w)) ++ [Expunged] /\
  fst (error_response (HTTPException 500 detail) (snd create)) =
    Ok (500, PDict [("detail", PStr detail)]).
Proof.
  intros Hbook Hup1 Hup2 detail create. subst detail create.
  destruct (find_known_book _ _ Hbook) as (b & Hfind).
  set (w1 := consume_db_outcome (with_calls (calls w ++ [GatewayGetBook book_id]) w)).
  assert (Hf1 : next_db_fault w1 = Some f).
  { rewrite <- Hup2. apply next_db_fault_database. reflexivity. }
  destruct (gateway_create_review_fault_run book_id review f w1 Hf1) as (Hr & Hd).
  pose proof (f_equal reviews Hd) as Hrs.
  pose proof (f_equal session Hd) as Hss.
  simpl in Hrs, Hss.
  unfold Api.create_book_review, Api.get_book_reviews.
  rewrite !run_bind, gateway_get_book_run, Hup1, Hfind. cbv beta iota.
  rewrite !run_try_except. fold w1.
  destruct (BookService.create_review book_id review w1) as [[r | e] w2];
    simpl in Hr; [discriminate Hr |].
  injection Hr as ->. simpl in Hrs, Hss. unfold raise. simpl.
  split; [reflexivity |].
  split.
  { rewrite run_bind.
    unfold BookService.get_book_reviews, Session.query_reviews_all, Session.round_trip.
    unfold bind, record, read, ret. simpl.
    change (next_db_fault (with_calls _ w1)) with (next_db_fault w1).
    rewrite Hf1. reflexivity. }
  repeat split; assumption || reflexivity.
Qed.

Lemma review_failure_is_wrapped_witness :
  let w := Samples.with_faults [None; Some (OperationalFault "connection lost")] Samples.w0 in
  let create := Api.create_book_review 2 Samples.praise w in
  fst create = Raise (HTTPException 500 "Internal server error: connection lost") /\
  fst (Api.get_book_reviews 2 0 100 w) =
    Raise (HTTPException 500 "Internal server error: connection lost") /\
  reviews (database (snd create)) = [] /\
  session (database (snd create)) = [Expunged] /\
  fst (error_response (HTTPException 500 "Internal server error: connection lost")
         (snd create)) =
    Ok (500, PDict [("detail", PStr "Internal server error: connection lost")]).
Proof.
  apply (review_failure_is_wrapped 2 Samples.praise 0 100
           (OperationalFault "connection lost")
           (Samples.with_faults [None; Some (OperationalFault "connection lost")] Samples.w0)).
  - reflexivity.
  - reflexivity.
  - reflexivity.
Defined.

(** ** Invalidation and what it leaves in the cache *)

(** The session never touches Redis. *)
Section SessionKeepsRedis.
Context (Q : option Redis -> RedisServer -> Prop).
Let Q' : option Redis -> RedisServer -> Database -> Prop := fun c r _ => Q c r.

Lemma db_round_trip_keeps_redis : keeps Q' Session.round_trip.
Proof.
  intros w H. unfold Session.round_trip. destruct (next_db_fault w); exact H.
Qed.

Lemma add_keeps_redis row : keeps Q' (Session.add row).
Proof. intros w H. exact H. Qed.

Lemma rollback_keeps_redis : keeps Q' Session.rollback.
Proof. intros w H. exact H. Qed.

Lemma commit_keeps_redis : keeps Q' Session.commit.
Proof.
  unfold Session.commit. apply keeps_try_except;
    [| intros e; apply keeps_bind;
       [apply rollback_keeps_redis | intros _; apply keeps_raise]].
  apply keeps_bind; [apply db_round_trip_keeps_redis |].
  intros _ w H. destruct (flush _ _) as [[objs | e] d']; exact H.
Qed.

Lemma gateway_create_book_keeps_redis book : keeps Q' (BookService.create_book book).
Proof.
  unfold BookService.create_book, Session.refresh_book, Session.query_book_first,
    Session.invalid_request.
  repeat (keeps_step || apply add_keeps_redis || apply commit_keeps_redis
          || apply db_round_trip_keeps_redis).
Qed.

End SessionKeepsRedis.

Lemma delete_keeps_other_key key other v :
  key <> other ->
  keeps (on_store (fun s => s !! other = v)) (CacheService.delete key).
Proof.
  intros Hne w H. unfold on_store in *. unfold_cache. simpl.
  destruct (redis_client w); simpl; [| exact H].
  destruct (next_redis_fault _) as [[msg | msg] |]; simpl; [exact H | |];
    rewrite lookup_delete_ne by exact Hne; exact H.
Qed.

Lemma create_book_keeps_other_key book other v :
  ~ In other cache_keys_to_invalidate ->
  keeps (on_store (fun s => s !! other = v)) (Api.create_book book).
Proof.
  intros Hother. unfold Api.create_book.
  repeat (keeps_step
          || apply (gateway_create_book_keeps_redis (fun _ r => store r !! other = v))
          || apply (rollback_keeps_redis (fun _ r => store r !! other = v))).
  apply delete_keeps_other_key. intros ->. contradiction.
Qed.

Lemma create_book_keeps_client book c :
  keeps (fun c' _ _ => c' = c) (Api.create_book book).
Proof.
  unfold Api.create_book.
  repeat (keeps_step
          || apply (gateway_create_book_keeps_redis (fun c' _ => c' = c))
          || apply (rollback_keeps_redis (fun c' _ => c' = c))).
  intros w Hw.
  match goal with |- context [CacheService.delete ?k w] =>
    destruct (delete_returns k w) as (b & w' & -> & Hc & _)
  end.
  simpl. rewrite Hc. exact Hw.
Qed.

(** X20: [create_book] invalidates the three fixed keys and nothing else: in
    every run, every other key of the store holds what it held before. *)
Theorem creation_leaves_other_keys (book : BookCreate.t) (other : string) (w : World) :
  ~ In other cache_keys_to_invalidate ->
  store (redis (snd (Api.create_book book w))) !! other = store (redis w) !! other.
Proof.
  intros Hother.
  apply (create_book_keeps_other_key book other (store (redis w) !! other) Hother w).
  reflexivity.
Qed.

Lemma creation_leaves_other_keys_witness :
  let w := Samples.with_store {[ "books:list:0:20" := (300, "[]") ]} Samples.w0 in
  store (redis (snd (Api.create_book Samples.ulysses w))) !! "books:list:0:20" =
  Some (300, "[]").
Proof.
  intros w.
  rewrite (creation_leaves_other_keys Samples.ulysses "books:list:0:20" w).
  - reflexivity.
  - intros [H | [H | [H | []]]]; discriminate H.
Defined.

Lemma redis_up_faults n w1 w2 :
  redis_faults (redis w1) = redis_faults (redis w2) -> redis_up n w1 -> redis_up n w2.
Proof.
  revert w1 w2. induction n as [| n IH]; intros w1 w2 Hf; simpl; [tauto |].
  intros [Hup Hrest]. split.
  - unfold next_redis_fault in *. rewrite <- Hf. exact Hup.
  - apply (IH (consume_redis_outcome w1)); [| exact Hrest].
    simpl. rewrite Hf. reflexivity.
Qed.

Lemma delete_run key w c :
  redis_client w = Some c ->
  next_redis_fault w = None ->
  exists w',
    CacheService.delete key w = (Ok true, w') /\
    redis_client w' = Some c /\
    redis w' = {| store := base.delete key (store (redis w));
                  redis_faults := tail (redis_faults (redis w)) |}.
Proof.
  intros Hc Hup. unfold_cache. simpl. rewrite Hc. simpl.
  change (next_redis_fault (with_calls _ w)) with (next_redis_fault w).
  rewrite Hup. simpl. eexists. repeat split; assumption.
Qed.

Lemma invalidation_deletes keys w c :
  redis_client w = Some c ->
  redis_up (length keys) w ->
  forall key,
    In key keys \/ store (redis w) !! key = None ->
    store (redis (snd (for_each keys
                         (fun cache_key => CacheService.delete cache_key;;; ret tt) w)))
      !! key = None.
Proof.
  revert w. induction keys as [| k keys IH]; intros w Hc Hup key Hkey.
  - destruct Hkey as [[] | Hkey]. exact Hkey.
  - destruct Hup as [Hup Hrest].
    rewrite for_each_cons, !run_bind.
    destruct (delete_run k w c Hc Hup) as (w1 & -> & Hc1 & Hr1).
    unfold ret at 1. cbv beta iota.
    apply (IH w1 Hc1).
    + apply (redis_up_faults _ (consume_redis_outcome w)); [| exact Hrest].
      rewrite Hr1. reflexivity.
    + rewrite Hr1. simpl.
      destruct (decide (k = key)) as [-> | Hne].
      * right. apply lookup_delete_eq.
      * destruct Hkey as [[Heq | Hin] | Hnone]; [contradiction | left; exact Hin |].
        right. rewrite lookup_delete_ne by exact Hne. exact Hnone.
Qed.

Lemma get_absent_when_not_stored {J : Json} key w :
  store (redis w) !! key = None -> fst (CacheService.get key w) = Ok PNone.
Proof.
  intros Hnone. unfold_cache. simpl.
  destruct (redis_client w); simpl; [| reflexivity].
  destruct (next_redis_fault _) as [[msg | msg] |]; simpl;
    [reflexivity | reflexivity |].
  rewrite Hnone. reflexivity.
Qed.

(** After a creation that returned, the Redis server is the one the loop of
    deletions leaves, and the loop starts from the server as it was. *)
Lemma create_book_redis_run book w new_book :
  fst (BookService.create_book book w) = Ok new_book ->
  exists wx,
    redis_client wx = redis_client w /\
    redis wx = redis w /\
    redis (snd (Api.create_book book w)) =
      redis (snd (for_each cache_keys_to_invalidate
                    (fun cache_key => CacheService.delete cache_key;;; ret tt) wx)).
Proof.
  intros Hok.
  pose proof (gateway_create_book_frame book w) as (Hc & Hr & _).
  unfold Api.create_book. rewrite run_bind. unfold log at 1.
  rewrite run_try_except, run_bind. unfold log at 1.
  rewrite run_bind, !gateway_create_book_logs.
  destruct (BookService.create_book book w) as [[b | e] wg]; simpl in Hok;
    [| discriminate Hok].
  simpl fst; simpl snd; cbv beta iota.
  rewrite run_bind. unfold log at 1.
  rewrite run_bind, run_try_except, run_bind.
  match goal with |- context [for_each _ _ ?x] =>
    exists x;
    destruct (invalidation_run cache_keys_to_invalidate x) as (wd & Hrun & _)
  end.
  rewrite Hrun. unfold log at 1. unfold ret at 1. simpl.
  split; [exact Hc |]. split; [exact Hr |]. reflexivity.
Qed.

(** X21: when Redis is reachable for the three deletions, a creation that
    returns leaves none of the fixed invalidation keys in the store, so the
    next [get] of each answers [None]. *)
Theorem invalidated_keys_are_absent {J : Json} (book : BookCreate.t) (new_book : Book.t)
    (c : Redis) (w : World) :
  redis_client w = Some c ->
  redis_up 3 w ->
  fst (BookService.create_book book w) = Ok new_book ->
  forall key, In key cache_keys_to_invalidate ->
    store (redis (snd (Api.create_book book w))) !! key = None /\
    fst (CacheService.get key (snd (Api.create_book book w))) = Ok PNone.
Proof.
  intros Hc Hup Hok key Hkey.
  destruct (create_book_redis_run book w new_book Hok) as (wx & Hcx & Hrx & Hredis).
  assert (Hnone : store (redis (snd (Api.create_book book w))) !! key = None).
  { rewrite Hredis. apply (invalidation_deletes _ wx c).
    - rewrite Hcx. exact Hc.
    - apply (redis_up_faults _ w); [rewrite Hrx; reflexivity | exact Hup].
    - left. exact Hkey. }
  split; [exact Hnone | apply get_absent_when_not_stored; exact Hnone].
Qed.

Lemma invalidated_keys_are_absent_witness :
  let w := Samples.with_store {[ "books:list:0:10" := (300, "[]") ]} Samples.w0 in
  store (redis (snd (Api.create_book Samples.ulysses w))) !! "books:list:0:10" = None /\
  fst (CacheService.get (J := Samples.sample_json) "books:list:0:10"
         (snd (Api.create_book Samples.ulysses w))) = Ok PNone.
Proof.
  intros w.
  apply (invalidated_keys_are_absent (J := Samples.sample_json) Samples.ulysses
           (book_row 3 "2024-02-01T00:00:00+00:00" Samples.ulysses) Samples.client w).
  - reflexivity.
  - simpl. repeat split; reflexivity.
  - vm_compute. reflexivity.
  - right. left. reflexivity.
Defined.

(** ** Reading through the cache *)

Lemma get_miss_run {J : Json} key w c :
  redis_client w = Some c ->
  next_redis_fault w = None ->
  store (redis w) !! key = None ->
  exists w',
    CacheService.get key w = (Ok PNone, w') /\
    redis_client w' = Some c /\
    redis w' = {| store := store (redis w);
                  redis_faults := tail (redis_faults (redis w)) |} /\
    database w' = database w.
Proof.
  intros Hc Hup Hnone. unfold_cache. simpl. rewrite Hc. simpl.
  change (next_redis_fault (with_calls _ w)) with (next_redis_fault w).
  rewrite Hup. simpl. rewrite Hnone. simpl.
  eexists. repeat split; assumption.
Qed.

Lemma set_run {J : Json} key value expire w c text :
  redis_client w = Some c ->
  json_dumps value = Ok text ->
  next_redis_fault w = None ->
  exists w',
    CacheService.set key value expire w = (Ok true, w') /\
    redis_client w' = Some c /\
    redis w' = {| store := <[key := (expire, text)]> (store (redis w));
                  redis_faults := tail (redis_faults (redis w)) |} /\
    database w' = database w.
Proof.
  intros Hc Hd Hup. unfold_cache. simpl. rewrite Hc. simpl. rewrite Hd. simpl.
  change (next_redis_fault (with_calls _ w)) with (next_redis_fault w).
  rewrite Hup. simpl. eexists. repeat split; assumption.
Qed.

Lemma get_stored {J : Json} key w c expire text v :
  redis_client w = Some c ->
  next_redis_fault w = None ->
  store (redis w) !! key = Some (expire, text) ->
  text <> "" ->
  json_loads text = Ok v ->
  fst (CacheService.get key w) = Ok v.
Proof.
  intros Hc Hup Hs Htext Hl. unfold_cache. simpl. rewrite Hc. simpl.
  change (next_redis_fault (with_calls _ w)) with (next_redis_fault w).
  rewrite Hup. simpl. rewrite Hs. simpl.
  destruct text as [| a text]; [contradiction |]. simpl. rewrite Hl. reflexivity.
Qed.

(** The Redis server after a listing that missed, loaded and stored. *)
Lemma get_books_stores {J : Json} skip limit w c text :
  redis_client w = Some c ->
  redis_up 2 w ->
  store (redis w) !! cache_key skip limit = None ->
  next_db_fault w = None ->
  json_dumps (PList (map book_dict (window skip limit w))) = Ok text ->
  exists w',
    Api.get_books skip limit w = (Ok (FromGateway (window skip limit w)), w') /\
    redis_client w' = Some c /\
    redis w' =
      {| store := <[cache_key skip limit := (300, text)]> (store (redis w));
         redis_faults := tail (tail (redis_faults (redis w))) |}.
Proof.
  intros Hc (Hup1 & Hup2 & _) Hnone Hdb Hdumps.
  destruct (get_miss_run (cache_key skip limit) w c Hc Hup1 Hnone)
    as (w1 & Hget & Hc1 & Hr1 & Hd1).
  unfold Api.get_books. rewrite run_try_except, run_bind, Hget. cbv beta iota.
  rewrite run_bind. unfold log at 1. cbv beta iota.
  rewrite run_bind, gateway_get_books_run.
  rewrite (next_db_fault_database w) by (simpl; exact Hd1).
  rewrite Hdb. cbv beta iota.
  match goal with |- context [window skip limit (with_logs ?l w1)] =>
    rewrite (window_database skip limit w (with_logs l w1)) by exact Hd1
  end.
  rewrite run_bind.
  match goal with |- context [CacheService.set ?k ?v ?e ?x] =>
    destruct (set_run k v e x c text) as (w3 & Hset & Hc3 & Hr3 & Hd3)
  end.
  { simpl. exact Hc1. }
  { exact Hdumps. }
  { unfold next_redis_fault in Hup2 |- *. simpl in Hup2 |- *. rewrite Hr1. exact Hup2. }
  rewrite Hset. cbv beta iota. rewrite run_bind. unfold log at 1, ret at 1.
  cbv beta iota. eexists. split; [reflexivity |]. simpl.
  rewrite Hc3, Hr3. simpl. rewrite Hr1. simpl. split; reflexivity.
Qed.

(** X22: read-through. A listing that finds nothing under its key loads the
    window and stores it; provided [json.loads] gives back what [json.dumps]
    wrote, the same request made again is answered from the cache with the
    rows as dictionaries and does not call the gateway. *)
Theorem second_request_served_from_cache {J : Json} (skip limit : Z) (w : World)
    (c : Redis) (text : string) :
  redis_client w = Some c ->
  redis_up 3 w ->
  store (redis w) !! cache_key skip limit = None ->
  next_db_fault w = None ->
  json_dumps (PList (map book_dict (window skip limit w))) = Ok text ->
  text <> "" ->
  json_loads text = Ok (PList (map book_dict (window skip limit w))) ->
  let w1 := snd (Api.get_books skip limit w) in
  fst (Api.get_books skip limit w) = Ok (FromGateway (window skip limit w)) /\
  fst (Api.get_books skip limit w1) =
    Ok (FromCache (PList (map book_dict (window skip limit w)))) /\
  gateway_calls (snd (Api.get_books skip limit w1)) = gateway_calls w1.
Proof.
  intros Hc (Hup1 & Hup2 & Hup3 & _) Hnone Hdb Hdumps Htext Hloads w1.
  destruct (get_books_stores skip limit w c text Hc (conj Hup1 (conj Hup2 I))
              Hnone Hdb Hdumps) as (w1' & Hfirst & Hc1 & Hr1).
  subst w1. rewrite Hfirst. simpl. set (w1 := w1') in *.
  split; [reflexivity |].
  assert (Hget : fst (CacheService.get (cache_key skip limit) w1) =
                 Ok (PList (map book_dict (window skip limit w)))).
  { apply (get_stored _ w1 c 300 text); try assumption.
    - unfold next_redis_fault in Hup3 |- *. simpl in Hup3. rewrite Hr1. exact Hup3.
    - rewrite Hr1. simpl. apply lookup_insert_eq. }
  destruct (get_books_on_hit skip limit w1 _ Hget) as (w2 & -> & Hcalls);
    [discriminate |].
  simpl. split; [reflexivity |].
  unfold gateway_calls at 1. rewrite Hcalls, gateway_calls_app. apply app_nil_r.
Qed.

Lemma second_request_served_from_cache_witness :
  let w1 := snd (Api.get_books (J := Samples.sample_json) 5 10 Samples.w0) in
  fst (Api.get_books (J := Samples.sample_json) 5 10 Samples.w0) = Ok (FromGateway []) /\
  fst (Api.get_books (J := Samples.sample_json) 5 10 w1) = Ok (FromCache (PList [])) /\
  gateway_calls (snd (Api.get_books (J := Samples.sample_json) 5 10 w1)) = gateway_calls w1.
Proof.
  apply (second_request_served_from_cache (J := Samples.sample_json) 5 10 Samples.w0
           Samples.client "[]").
  - reflexivity.
  - simpl. repeat split; reflexivity.
  - reflexivity.
  - reflexivity.
  - reflexivity.
  - discriminate.
  - reflexivity.
Defined.

(** X23: a cached window whose key is not one of the three fixed keys
    survives every creation: after [create_book], whatever it answered, a
    listing of that window whose round trip to Redis returns is still
    answered with the value cached before. *)
Theorem stale_window_survives_creation {J : Json} (book : BookCreate.t) (skip limit : Z)
    (w : World) (v : pyval) (n : Z) :
  ~ In (cache_key skip limit) cache_keys_to_invalidate ->
  fst (CacheService.get (cache_key skip limit) w) = Ok v ->
  v <> PNone ->
  len v = Ok n ->
  next_redis_fault (snd (Api.create_book book w)) = None ->
  fst (Api.get_books skip limit (snd (Api.create_book book w))) = Ok (FromCache v).
Proof.
  intros Hkey Hget Hsome Hlen Hup.
  destruct (cache_hit_source _ w v Hget Hsome)
    as (c & expire & text & Hc & _ & Hs & Htext & Hl).
  set (w' := snd (Api.create_book book w)) in *.
  assert (Hc' : redis_client w' = Some c).
  { apply (create_book_keeps_client book (Some c) w). exact Hc. }
  assert (Hs' : store (redis w') !! cache_key skip limit = Some (expire, text)).
  { apply (create_book_keeps_other_key book _ _ Hkey w). exact Hs. }
  pose proof (get_stored _ w' c expire text v Hc' Hup Hs' Htext Hl) as Hget'.
  destruct (get_books_on_hit skip limit w' v Hget' Hsome) as (w2 & -> & _).
  rewrite Hlen. reflexivity.
Qed.

Lemma stale_window_survives_creation_witness :
  let w := Samples.with_store {[ "books:list:0:20" := (300, "[]") ]} Samples.w0 in
  fst (Api.create_book Samples.ulysses w) =
    Ok (book_row 3 "2024-02-01T00:00:00+00:00" Samples.ulysses) /\
  fst (Api.get_books (J := Samples.sample_json) 0 20 (snd (Api.create_book Samples.ulysses w)))
    = Ok (FromCache (PList [])).
Proof.
  intros w. split; [vm_compute; reflexivity |].
  apply (stale_window_survives_creation (J := Samples.sample_json) Samples.ulysses 0 20 w
           (PList []) 0).
  - intros [H | [H | [H | []]]]; vm_compute in H; discriminate H.
  - vm_compute. reflexivity.
  - discriminate.
  - reflexivity.
  - vm_compute. reflexivity.
Defined.

(** X24: read your write on the default window. With Redis reachable for the
    deletions and the database for the commit, the refresh and the next load,
    a listing of window [(0, 100)] made after a creation that nothing stands
    against is loaded from the gateway and ends with the new book, provided
    fewer than 100 books were stored. *)
Theorem created_book_is_listed {J : Json} (book : BookCreate.t) (c : Redis) (w : World) :
  session (database w) = [] ->
  db_up 3 w ->
  isbn_free book (database w) ->
  Forall (fun b => Book.id b <= books_id_seq (database w)) (books (database w)) ->
  redis_client w = Some c ->
  redis_up 3 w ->
  (length (books (database w)) < 100)%nat ->
  fst (Api.get_books 0 100 (snd (Api.create_book book w))) =
    Ok (FromGateway
          (books (database w) ++
           [book_row (books_id_seq (database w) + 1) (now (database w)) book])).
Proof.
  intros Hfresh (Hup1 & Hup2 & Hup3 & _) Hfree Hids Hc Hredis Hlen.
  destruct (gateway_create_book_success book w Hfresh (conj Hup1 (conj Hup2 I)) Hfree Hids)
    as (Hr & Hb & _ & Hf).
  destruct (create_book_redis_run book w _ Hr) as (wx & Hcx & Hrx & Hrun).
  destruct (create_book_run book w) as (w' & Hw' & _ & Hdb).
  rewrite Hr in Hdb, Hw'. rewrite Hw' in *. simpl in *.
  assert (Hnone : store (redis w') !! cache_key 0 100 = None).
  { rewrite Hrun. apply (invalidation_deletes _ wx c).
    - rewrite Hcx. exact Hc.
    - apply (redis_up_faults _ w); [rewrite Hrx; reflexivity | exact Hredis].
    - left. left. reflexivity. }
  pose proof (get_absent_when_not_stored _ w' Hnone) as Hmiss.
  destruct (get_books_on_miss 0 100 w' Hmiss) as (w2 & -> & _). simpl.
  unfold miss_response, window. rewrite Hdb, Hf, Hb.
  unfold next_db_fault in Hup3. simpl in Hup3.
  assert (Hwin : take (Z.to_nat 100) (drop (Z.to_nat 0)
                   (books (database w) ++
                    [book_row (books_id_seq (database w) + 1) (now (database w)) book])) =
                 books (database w) ++
                 [book_row (books_id_seq (database w) + 1) (now (database w)) book]).
  { apply take_ge. simpl. rewrite length_app. simpl. lia. }
  rewrite Hwin.
  destruct (tail (tail (db_faults (database w)))) as [| [f |] rest];
    [reflexivity | discriminate Hup3 | reflexivity].
Qed.

Lemma created_book_is_listed_witness :
  fst (Api.get_books (J := Samples.sample_json) 0 100
         (snd (Api.create_book Samples.ulysses
                 (Samples.with_store {[ "books:list:0:100" := (300, "[]") ]} Samples.w0)))) =
  Ok (FromGateway
        [Samples.dune; Samples.emma;
         book_row 3 "2024-02-01T00:00:00+00:00" Samples.ulysses]).
Proof.
  apply (created_book_is_listed (J := Samples.sample_json) Samples.ulysses Samples.client
           (Samples.with_store {[ "books:list:0:100" := (300, "[]") ]} Samples.w0)).
  - reflexivity.
  - simpl. repeat split; reflexivity.
  - reflexivity.
  - repeat constructor; simpl; lia.
  - reflexivity.
  - simpl. repeat split; reflexivity.
  - simpl. lia.
Defined.

Lemma listed_reviews_belong_to_book_witness :
  let w := snd (Api.create_book_review 2 Samples.praise Samples.w0) in
  existsb (has_id 2) (books (database w)) = true /\
  (1 <= Z.to_nat 100)%nat /\
  Forall (fun r => Review.book_id r = 2 /\ In r (reviews (database w)))
    [review_row 1 2 "2024-02-01T00:00:00+00:00" Samples.praise].
Proof.
  apply (listed_reviews_belong_to_book 2 0 100
           (snd (Api.create_book_review 2 Samples.praise Samples.w0))
           [review_row 1 2 "2024-02-01T00:00:00+00:00" Samples.praise]).
  vm_compute. reflexivity.
Defined.
